(** * Currency converter screen (App.js): validation and request/response mapping

    A shallow embedding of [validateInput] and [handleConvert] of the
    [MainScreen] component, of the change handlers of its text fields and
    of the conditional parts of what it renders, together with the parts of
    the JavaScript run-time they rely on: strings as sequences of UTF-16
    code units,
    [String.prototype.trim], the regular expression [/^[A-Z]{3}$/],
    [parseFloat], IEEE-754 doubles, truthiness, conversion to a Number,
    property access on parsed JSON, and the [fetch] response protocol. *)

From Stdlib Require Import List NArith ZArith Bool String Ascii Lia.
From Stdlib Require Import DecimalString DecimalPos DecimalN.
From Stdlib Require Import PrimFloat SpecFloat FloatOps FloatAxioms FloatLemmas.
From Stdlib Require Uint63.
Import ListNotations.

Set Implicit Arguments.
Set Warnings "-register-all,-inexact-float".

(** ** JavaScript strings *)

Module JS.

(** A JavaScript string is a sequence of UTF-16 code units. *)
Definition jsstring := list N.

(** Source literals are ASCII; [lit] turns one into its code units. *)
Definition lit (s : string) : jsstring :=
  map N_of_ascii (list_ascii_of_string s).

Definition unit_eqb (a b : N) : bool := N.eqb a b.

Fixpoint str_eqb (s t : jsstring) : bool :=
  match s, t with
  | [], [] => true
  | a :: s', b :: t' => unit_eqb a b && str_eqb s' t'
  | _, _ => false
  end.

(** [WhiteSpace] and [LineTerminator] of ECMA-262, the code units removed by
    [trim] and skipped by [parseFloat]. *)
Definition isWhiteSpace (c : N) : bool :=
  ((9 <=? c) && (c <=? 13)           (* TAB LF VT FF CR *)
   || (c =? 32)                      (* SP *)
   || (c =? 160)                     (* NBSP *)
   || (c =? 0x1680)
   || ((0x2000 <=? c) && (c <=? 0x200A))
   || (c =? 0x2028) || (c =? 0x2029) (* LS PS *)
   || (c =? 0x202F) || (c =? 0x205F)
   || (c =? 0x3000)
   || (c =? 0xFEFF))%N.             (* ZWNBSP *)

Fixpoint trimStart (s : jsstring) : jsstring :=
  match s with
  | c :: s' => if isWhiteSpace c then trimStart s' else s
  | [] => []
  end.

Definition trimEnd (s : jsstring) : jsstring := rev (trimStart (rev s)).

(** [String.prototype.trim] *)
Definition trim (s : jsstring) : jsstring := trimEnd (trimStart s).

(** [String.prototype.toUpperCase] restricted to Basic Latin: the only case
    pairs below U+0080 are a-z / A-Z. *)
Definition upperUnit (c : N) : N :=
  if ((97 <=? c) && (c <=? 122))%N then (c - 32)%N else c.

Definition toUpperCaseAscii (s : jsstring) : jsstring := map upperUnit s.

Definition isAscii (s : jsstring) : bool := forallb (fun c => (c <? 128)%N) s.

(** ** The regular expression [/^[A-Z]{3}$/]

    No flags: [^] and [$] anchor at the two ends of the input, so [test]
    accepts exactly the strings of three code units in [A-Z]. *)
Definition isUpperLetter (c : N) : bool := ((65 <=? c) && (c <=? 90))%N.

Fixpoint classRepeat (cls : N -> bool) (n : nat) (s : jsstring) : option jsstring :=
  match n with
  | O => Some s
  | S n' => match s with
            | c :: s' => if cls c then classRepeat cls n' s' else None
            | [] => None
            end
  end.

Definition currencyRegex_test (s : jsstring) : bool :=
  match classRepeat isUpperLetter 3 s with
  | Some [] => true
  | _ => false
  end.

(** ** Numbers: IEEE-754 binary64 *)

Definition number := float.

Definition prec : Z := 53.
Definition emax : Z := 1024.

(** The Number value of the positive rational [p / q]: round to nearest,
    ties to even, overflowing to infinity. *)
Definition numberOfRatio (neg : bool) (p q : positive) : number :=
  SF2Prim (SFdiv prec emax (S754_finite neg p 0) (S754_finite false q 0)).

(** The Number value of [m * 10^e]. *)
Definition numberOfDecimal (neg : bool) (m : N) (e : Z) : number :=
  match m with
  | N0 => SF2Prim (S754_zero neg)
  | Npos p =>
      match e with
      | Zneg k => numberOfRatio neg p (Pos.pow 10 k)
      | Z0 => numberOfRatio neg p 1
      | Zpos k => numberOfRatio neg (p * Pos.pow 10 k) 1
      end
  end.

(** The global [isNaN] on a value that is already a Number. *)
Definition isNaN (x : number) : bool := PrimFloat.is_nan x.

(** ** [parseFloat]

    Skip leading white space, then read the longest prefix that is a
    [StrDecimalLiteral]:
    an optional sign followed by [Infinity], or by digits with an optional
    fraction, or by a fraction alone, and then an optional exponent part.
    Whatever follows the prefix is ignored; no prefix gives NaN. *)

Definition isDigit (c : N) : bool := ((48 <=? c) && (c <=? 57))%N.

Definition digitValue (c : N) : N := (c - 48)%N.

(** Reads a run of decimal digits: its value (continuing [acc]), its length,
    and the rest of the input. *)
Fixpoint readDigits (acc : N) (len : nat) (s : jsstring) : N * nat * jsstring :=
  match s with
  | c :: s' =>
      if isDigit c then readDigits (10 * acc + digitValue c)%N (S len) s'
      else (acc, len, s)
  | [] => (acc, len, [])
  end.

Fixpoint startsWith (p s : jsstring) : bool :=
  match p, s with
  | [], _ => true
  | a :: p', b :: s' => unit_eqb a b && startsWith p' s'
  | _ :: _, [] => false
  end.

(** [ExponentPart]: e or E, an optional sign, at least one digit.  An
    incomplete exponent is not part of the prefix and counts as 0. *)
Definition readExponent (s : jsstring) : Z :=
  match s with
  | c :: s' =>
      if ((c =? 101) || (c =? 69))%N then
        let '(neg, s'') :=
          match s' with
          | d :: t => if (d =? 43)%N then (false, t)
                      else if (d =? 45)%N then (true, t)
                      else (false, s')
          | [] => (false, s')
          end in
        let '(v, len, _) := readDigits 0 0 s'' in
        match len with
        | O => 0%Z
        | S _ => if neg then (- Z.of_N v)%Z else Z.of_N v
        end
      else 0%Z
  | [] => 0%Z
  end.

(** [StrUnsignedDecimalLiteral] *)
Definition readUnsigned (neg : bool) (s : jsstring) : number :=
  if startsWith (lit "Infinity") s then
    (if neg then neg_infinity else infinity)
  else
    let '(ip, ilen, r1) := readDigits 0 0 s in
    match r1 with
    | c :: r1' =>
        if (c =? 46)%N then
          let '(m, flen, r2) := readDigits ip 0 r1' in
          match ilen, flen with
          | O, O => nan
          | _, _ => numberOfDecimal neg m (readExponent r2 - Z.of_nat flen)
          end
        else
          match ilen with
          | O => nan
          | S _ => numberOfDecimal neg ip (readExponent r1)
          end
    | [] =>
        match ilen with
        | O => nan
        | S _ => numberOfDecimal neg ip 0
        end
    end.

Definition parseFloat (s : jsstring) : number :=
  match trimStart s with
  | c :: s' =>
      if (c =? 43)%N then readUnsigned false s'
      else if (c =? 45)%N then readUnsigned true s'
      else readUnsigned false (c :: s')
  | [] => nan
  end.

End JS.

Import JS.
Open Scope string_scope.

(** ** JavaScript values, as far as the screen handles them *)

(** The result of [response.json()] is built from the JSON constructors
    only; [Undefined] arises from a missing property. *)
Inductive value : Type :=
| Undefined
| Null
| Bool (b : bool)
| Num (x : number)
| Str (s : jsstring)
| Arr (elems : list value)
| Obj (props : list (jsstring * value)).

(** [ToBoolean] *)
Definition toBoolean (v : value) : bool :=
  match v with
  | Undefined | Null => false
  | Bool b => b
  | Num x => negb (PrimFloat.is_zero x || PrimFloat.is_nan x)
  | Str s => match s with [] => false | _ :: _ => true end
  | Arr _ | Obj _ => true
  end.

(** [a || b] on values *)
Definition orElse (a b : value) : value := if toBoolean a then a else b.

Fixpoint lookup (k : jsstring) (props : list (jsstring * value)) : option value :=
  match props with
  | (k', v) :: rest => if str_eqb k k' then Some v else lookup k rest
  | [] => None
  end.

(** [v[k]] for a [v] that is neither null nor undefined.  The keys used by
    the screen are [data], [message] and a three-letter upper-case currency
    code; none of them names a property of a built-in prototype, an array
    index or [length], so only objects answer. *)
Definition getProp (v : value) (k : jsstring) : value :=
  match v with
  | Obj props => match lookup k props with Some x => x | None => Undefined end
  | _ => Undefined
  end.

Definition isNullish (v : value) : bool :=
  match v with Undefined | Null => true | _ => false end.

(** [v?.[k]] and [v?.k] *)
Definition optProp (v : value) (k : jsstring) : value :=
  if isNullish v then Undefined else getProp v k.

(** [ToPrimitive] throws a TypeError.  A value parsed from JSON holds no
    function.  An object is converted through [valueOf], which it inherits
    and which gives the object back (an own [valueOf] is not callable and is
    skipped), and then through [toString]: the inherited one gives a string,
    an own one is not callable, and then no method is left.  An array is
    converted through [join], which converts every element that is neither
    null nor undefined to a string, by the same rules. *)
Fixpoint primitiveThrows (v : value) : bool :=
  match v with
  | Obj props =>
      match lookup (lit "toString") props with Some _ => true | None => false end
  | Arr elems => existsb primitiveThrows elems
  | _ => false
  end.

(** What React accepts as a child of an element: text, numbers, booleans
    and null (which show nothing) and arrays of such; a plain object is
    refused with an error. *)
Fixpoint validChild (v : value) : bool :=
  match v with
  | Obj _ => false
  | Arr elems => forallb validChild elems
  | _ => true
  end.

(** Decimal rendering of a non-negative integer Number, as a template
    literal does for [response.status]. *)
Definition decimal (n : N) : jsstring := lit (NilZero.string_of_uint (N.to_uint n)).

(** ** fetch *)

(** A received response: its status and what [response.json()] settles to
    ([None] when the body is not JSON and the promise rejects). *)
Record Response : Type := mkResponse {
  status : N;
  json : option value
}.

(** [response.ok] *)
Definition ok (r : Response) : bool := ((200 <=? status r) && (status r <=? 299))%N.

(** What [await fetch(url)] does: reject, or resolve to a response. *)
Inductive FetchOutcome : Type :=
| Rejected
| Responded (r : Response).

(** ** Component state *)

(** The [useState] cells of [MainScreen], and the alerts shown so far. *)
Record ScreenState : Type := mkScreen {
  baseCurrency : jsstring;
  destCurrency : jsstring;
  amount : jsstring;
  convertedAmount : value;
  exchangeRate : value;
  errorMessage : value;
  isLoading : bool;
  alerts : list (jsstring * jsstring)
}.

Definition setBaseCurrency (v : jsstring) (s : ScreenState) : ScreenState :=
  mkScreen v (destCurrency s) (amount s) (convertedAmount s) (exchangeRate s)
           (errorMessage s) (isLoading s) (alerts s).

Definition setDestCurrency (v : jsstring) (s : ScreenState) : ScreenState :=
  mkScreen (baseCurrency s) v (amount s) (convertedAmount s) (exchangeRate s)
           (errorMessage s) (isLoading s) (alerts s).

Definition setAmount (v : jsstring) (s : ScreenState) : ScreenState :=
  mkScreen (baseCurrency s) (destCurrency s) v (convertedAmount s) (exchangeRate s)
           (errorMessage s) (isLoading s) (alerts s).

Definition setConvertedAmount (v : value) (s : ScreenState) : ScreenState :=
  mkScreen (baseCurrency s) (destCurrency s) (amount s) v (exchangeRate s)
           (errorMessage s) (isLoading s) (alerts s).

Definition setExchangeRate (v : value) (s : ScreenState) : ScreenState :=
  mkScreen (baseCurrency s) (destCurrency s) (amount s) (convertedAmount s) v
           (errorMessage s) (isLoading s) (alerts s).

Definition setErrorMessage (v : value) (s : ScreenState) : ScreenState :=
  mkScreen (baseCurrency s) (destCurrency s) (amount s) (convertedAmount s)
           (exchangeRate s) v (isLoading s) (alerts s).

Definition setIsLoading (v : bool) (s : ScreenState) : ScreenState :=
  mkScreen (baseCurrency s) (destCurrency s) (amount s) (convertedAmount s)
           (exchangeRate s) (errorMessage s) v (alerts s).

(** [Alert.alert(title, text)] *)
Definition alert (title text : jsstring) (s : ScreenState) : ScreenState :=
  mkScreen (baseCurrency s) (destCurrency s) (amount s) (convertedAmount s)
           (exchangeRate s) (errorMessage s) (isLoading s)
           (alerts s ++ [(title, text)])%list.

(** ** Handlers as state transformers that may throw *)

Inductive completion (A : Type) : Type :=
| Normal (a : A)
| Thrown.
Arguments Normal {A} a.
Arguments Thrown {A}.

Definition M (A : Type) : Type := ScreenState -> completion A * ScreenState.

Definition ret {A} (a : A) : M A := fun s => (Normal a, s).

Definition bind {A B} (c : M A) (k : A -> M B) : M B :=
  fun s => match c s with
           | (Normal a, s') => k a s'
           | (Thrown, s') => (Thrown, s')
           end.

Definition throw {A} : M A := fun s => (Thrown, s).

Definition getState : M ScreenState := fun s => (Normal s, s).

Definition update (f : ScreenState -> ScreenState) : M unit :=
  fun s => (Normal tt, f s).

Notation "x <- c ;; k" := (bind c (fun x => k))
  (at level 61, c at next level, right associativity).
Notation "c ;; k" := (bind c (fun _ => k))
  (at level 61, right associativity).

(** [try { body } catch { handler } finally { fin }] *)
Definition tryCatchFinally (body handler fin : M unit) : M unit :=
  fun s =>
    match body s with
    | (Normal _, s1) => fin s1
    | (Thrown, s1) =>
        match handler s1 with
        | (Normal _, s2) => fin s2
        | (Thrown, s2) => (Thrown, snd (fin s2))
        end
    end.

(** ** The messages of App.js *)

Inductive ErrorKind : Type :=
| InvalidBaseCurrency
| InvalidDestCurrency
| InvalidAmount
| InvalidApiKey
| UnknownCurrencyOrRate
| NetworkError.

Definition messageOf (k : ErrorKind) : jsstring :=
  match k with
  | InvalidBaseCurrency =>
      lit "Base currency must be a 3-letter uppercase code (e.g. CAD)."
  | InvalidDestCurrency =>
      lit "Destination currency must be a 3-letter uppercase code (e.g. USD)."
  | InvalidAmount => lit "Amount must be a positive number."
  | InvalidApiKey => lit "Invalid API Key. Please check the key in App.js."
  | UnknownCurrencyOrRate => lit "Invalid currency code or missing exchange rate."
  | NetworkError => lit "A network error occurred. Please check your connection."
  end.

(** [`Request failed with status ${response.status}.`] *)
Definition requestFailedMessage (st : N) : jsstring :=
  (lit "Request failed with status " ++ decimal st ++ lit ".")%list.

Definition apiKey : jsstring := lit "fca_live_oMoG8VygncoNd6rUsq3mMtjDYCzaSzjKtpjf9EXN".

Definition requestUrl (base dest : jsstring) : jsstring :=
  (lit "https://api.freecurrencyapi.com/v1/latest?apikey=" ++ apiKey
   ++ lit "&base_currency=" ++ base ++ lit "&currencies=" ++ dest)%list.

(** ** validateInput *)

Definition validateInput : M bool :=
  s <- getState ;;
  if negb (currencyRegex_test (trim (baseCurrency s))) then
    update (setErrorMessage (Str (messageOf InvalidBaseCurrency))) ;;
    ret false
  else if negb (currencyRegex_test (trim (destCurrency s))) then
    update (setErrorMessage (Str (messageOf InvalidDestCurrency))) ;;
    ret false
  else
    let numericAmount := parseFloat (amount s) in
    if isNaN numericAmount || PrimFloat.leb numericAmount 0 then
      update (setErrorMessage (Str (messageOf InvalidAmount))) ;;
      ret false
    else
      ret true.

(** [validateInput] fails reporting kind [k]. *)
Definition failsWith (k : ErrorKind) (s : ScreenState) : Prop :=
  validateInput s = (Normal false, setErrorMessage (Str (messageOf k)) s).

Definition passes (s : ScreenState) : Prop :=
  validateInput s = (Normal true, s).

(** The [onChangeText] handlers of the two currency fields, given the
    engine's [toUpperCase]. *)
Definition onChangeBase (toUpperCase : jsstring -> jsstring) (text : jsstring)
  : ScreenState -> ScreenState := setBaseCurrency (toUpperCase text).

Definition onChangeDest (toUpperCase : jsstring -> jsstring) (text : jsstring)
  : ScreenState -> ScreenState := setDestCurrency (toUpperCase text).

(** The outcome of an attempt, as the screen renders it. *)
Definition outcome (s : ScreenState) : value * value * value :=
  (exchangeRate s, convertedAmount s, errorMessage s).

(** A remainder that cannot continue a run of digits into a longer numeric
    literal: the end of the input, or a code unit that is not a digit, a
    decimal point or an exponent indicator. *)
Definition endsNumber (junk : jsstring) : bool :=
  match junk with
  | [] => true
  | c :: _ => negb (isDigit c || (c =? 46) || (c =? 101) || (c =? 69))%N
  end.

(** A letter of Basic Latin, in either case. *)
Definition isAsciiLetter (c : N) : bool :=
  isUpperLetter c || ((97 <=? c) && (c <=? 122))%N.

(** Reading the body of a 2xx response throws: [response.json()] rejects,
    or it gives null and [json.data] is a TypeError. *)
Definition bodyThrows (r : Response) : bool :=
  match json r with
  | Some v => isNullish v
  | None => true
  end.

(** The sign carried by a specification float, if it has one. *)
Definition signed (sx : bool) (x : spec_float) : Prop :=
  match x with
  | S754_zero s | S754_infinity s | S754_finite s _ _ => s = sx
  | S754_nan => True
  end.

(** A code unit that no numeric literal can absorb wherever the reading
    stopped: not a digit, a sign, a decimal point, an exponent indicator or
    a letter of [Infinity]. *)
Definition inert (c : N) : bool :=
  negb (isDigit c || (c =? 43) || (c =? 45) || (c =? 46) || (c =? 69) || (c =? 101)
        || existsb (unit_eqb c) (lit "Infinity"))%N.

Definition endsLiteral (junk : jsstring) : bool :=
  match junk with
  | [] => true
  | c :: _ => inert c
  end.

(** ** Fixtures *)

Definition screen (base dest amt : string) : ScreenState :=
  mkScreen (lit base) (lit dest) (lit amt) Null Null (Str []) false [].

(** A provider that answers every request the same way. *)
Definition stub (o : FetchOutcome) : jsstring -> FetchOutcome := fun _ => o.

Definition rates (code : string) (rate : number) : value :=
  Obj [(lit "data", Obj [(lit code, Num rate)])].

(** A body giving [code] a rate of any JSON type. *)
Definition rateBody (code : string) (rate : value) : value :=
  Obj [(lit "data", Obj [(lit code, rate)])].

(** The JSON object with the one member [toString] holding 1: truthy, and
    not convertible to a Number. *)
Definition unconvertible : value := Obj [(lit "toString", Num 1%float)].

(** A stand-in for the engine's conversion of non-Number rates, for runs
    in which the converted amount does not matter. *)
Definition noCoercion : value -> number := fun _ => nan.

(** A provider that answers every request with status [st] and body
    [body]. *)
Definition answers (st : N) (body : option value) : jsstring -> FetchOutcome :=
  stub (Responded (mkResponse st body)).

(** A provider that answers one URL and rejects every other request. *)
Definition answersAt (url : jsstring) (o : FetchOutcome) : jsstring -> FetchOutcome :=
  fun u => if str_eqb u url then o else Rejected.

(** A stand-in for the engine's [toFixed], for runs in which the digits
    shown do not matter. *)
Definition fixedStub : number -> N -> jsstring := fun _ _ => lit "#".

(** ** handleConvert *)

Section Handler.

(** The engine's [String.prototype.toUpperCase].  Its Unicode case tables
    are not part of the repository; on Basic Latin input it is the a-z to
    A-Z map. *)
Variable toUpperCase : jsstring -> jsstring.
Hypothesis toUpperCase_ascii :
  forall s, isAscii s = true -> toUpperCase s = toUpperCaseAscii s.

(** The engine's [ToNumber] on strings, arrays and objects (string numeric
    literals, [ToPrimitive]), where it gives a Number; never consulted for a
    Number, nor for an array or object on which [ToPrimitive] throws. *)
Variable coerceToNumber : value -> number.

(** [ToNumber]; [None] is a TypeError. *)
Definition toNumber (v : value) : option number :=
  match v with
  | Num x => Some x
  | Bool true => Some 1%float
  | Bool false | Null => Some 0%float
  | Undefined => Some nan
  | Str _ => Some (coerceToNumber v)
  | Arr _ | Obj _ => if primitiveThrows v then None else Some (coerceToNumber v)
  end.

(** [x * v] for a Number [x]. *)
Definition times (x : number) (v : value) : M number :=
  match toNumber v with
  | Some y => ret (x * y)%float
  | None => throw
  end.

(** [await fetch(url)]: a rejection is thrown at the [await]. *)
Definition awaitFetch (fetch : jsstring -> FetchOutcome) (url : jsstring) : M Response :=
  match fetch url with
  | Rejected => throw
  | Responded r => ret r
  end.

(** [await response.json()] *)
Definition awaitJson (r : Response) : M value :=
  match json r with
  | Some v => ret v
  | None => throw
  end.

(** [v.k]: a TypeError when [v] is null or undefined. *)
Definition member (v : value) (k : jsstring) : M value :=
  if isNullish v then throw else ret (getProp v k).

Definition handleConvert (fetch : jsstring -> FetchOutcome) : M unit :=
  update (setErrorMessage (Str [])) ;;
  update (setConvertedAmount Null) ;;
  update (setExchangeRate Null) ;;
  valid <- validateInput ;;
  if negb valid then ret tt
  else
    s <- getState ;;
    let numericAmount := parseFloat (amount s) in
    let base := toUpperCase (trim (baseCurrency s)) in
    let dest := toUpperCase (trim (destCurrency s)) in
    let url := requestUrl base dest in
    tryCatchFinally
      (update (setIsLoading true) ;;
       response <- awaitFetch fetch url ;;
       if negb (ok response) then
         if (status response =? 401)%N then
           update (setErrorMessage (Str (messageOf InvalidApiKey)))
         else
           (* response.json().catch(() => null) *)
           let errorData := match json response with Some v => v | None => Null end in
           update (setErrorMessage
                     (orElse (optProp errorData (lit "message"))
                             (Str (requestFailedMessage (status response)))))
       else
         body <- awaitJson response ;;
         data <- member body (lit "data") ;;
         let rate := optProp data dest in
         if toBoolean rate then
           update (setExchangeRate rate) ;;
           product <- times numericAmount rate ;;
           update (setConvertedAmount (Num product))
         else
           update (setErrorMessage (Str (messageOf UnknownCurrencyOrRate))))
      (update (setErrorMessage (Str (messageOf NetworkError))) ;;
       update (alert (lit "Network Error")
                     (lit "Could not connect to the currency service.")))
      (update (setIsLoading false)).

(** The screen once an attempt started from [s] has settled. *)
Definition attempt (fetch : jsstring -> FetchOutcome) (s : ScreenState) : ScreenState :=
  snd (handleConvert fetch s).

(** The three cells every attempt resets before doing anything else. *)
Definition cleared (s : ScreenState) : ScreenState :=
  setExchangeRate Null (setConvertedAmount Null (setErrorMessage (Str []) s)).

(** The values the handler computes from a state that passed validation. *)
Definition requestedBase (s : ScreenState) : jsstring := trim (baseCurrency s).
Definition requestedDest (s : ScreenState) : jsstring := trim (destCurrency s).

(** The URL requested for a state that passed validation. *)
Definition urlOf (s : ScreenState) : jsstring :=
  requestUrl (requestedBase s) (requestedDest s).

(** The multiplication by the rate of a 2xx response throws: the entry for
    [dest] is truthy and cannot be converted to a Number. *)
Definition productThrows (r : Response) (dest : jsstring) : bool :=
  match json r with
  | Some v =>
      negb (isNullish v)
      && toBoolean (optProp (getProp v (lit "data")) dest)
      && primitiveThrows (optProp (getProp v (lit "data")) dest)
  | None => false
  end.

(** The [try] block of an attempt that passed validation throws. *)
Definition requestThrows (fetch : jsstring -> FetchOutcome) (s : ScreenState) : bool :=
  match fetch (urlOf s) with
  | Rejected => true
  | Responded r => ok r && (bodyThrows r || productThrows r (requestedDest s))
  end.

(** ** What the screen shows *)

(** The engine's [Number.prototype.toFixed]. *)
Variable toFixed : number -> N -> jsstring.

(** [v.toFixed(digits)]: only a Number has the method.  On null the
    property access is a TypeError; on any other value built from JSON the
    property is not a function and the call is a TypeError. *)
Definition callToFixed (v : value) (digits : N) : completion jsstring :=
  match v with
  | Num x => Normal (toFixed x digits)
  | _ => Thrown
  end.

(** [v !== null] *)
Definition notNull (v : value) : bool :=
  match v with Null => false | _ => true end.

(** The conditional parts of the JSX returned by [MainScreen]: the error
    banner with the child it is given, the button, the activity indicator,
    and the three texts of the result block. *)
Record View : Type := mkView {
  errorBanner : option value;
  buttonTitle : jsstring;
  buttonDisabled : bool;
  activityIndicator : bool;
  resultBlock : option (jsstring * jsstring * jsstring)
}.

Definition render (s : ScreenState) : completion View :=
  let banner := if toBoolean (errorMessage s) then Some (errorMessage s) else None in
  let title := if isLoading s then lit "Converting..." else lit "Convert" in
  if toBoolean (errorMessage s) && negb (validChild (errorMessage s)) then
    (* the banner is given a child that React refuses *)
    Thrown
  else if negb (isLoading s) && notNull (convertedAmount s) then
    match callToFixed (exchangeRate s) 4 with
    | Normal rateText =>
        match callToFixed (convertedAmount s) 2 with
        | Normal amountText =>
            Normal (mkView banner title (isLoading s) (isLoading s)
                      (Some ((lit "1 " ++ baseCurrency s ++ lit " = " ++ rateText
                              ++ lit " " ++ destCurrency s)%list,
                             amountText, destCurrency s)))
        | Thrown => Thrown
        end
    | Thrown => Thrown
    end
  else
    Normal (mkView banner title (isLoading s) (isLoading s) None).

(** * Properties *)

(** ** The run-time *)

Lemma messageOf_inj : forall k k', messageOf k = messageOf k' -> k = k'.
Proof.
  intros k k' H; destruct k, k'; try reflexivity; vm_compute in H; discriminate H.
Qed.

Lemma setErrorMessage_inj : forall a b s,
  setErrorMessage a s = setErrorMessage b s -> a = b.
Proof.
  intros a b s H. apply (f_equal errorMessage) in H. exact H.
Qed.

Lemma SFcompare_refl_finite : forall sg m e,
  SFcompare (S754_finite sg m e) (S754_finite sg m e) = Some Eq.
Proof.
  intros sg m e; simpl.
  rewrite Z.compare_refl, Pos.compare_cont_refl. destruct sg; reflexivity.
Qed.

(** The amount test of [validateInput] is the negation of [0 < x]. *)
Lemma amount_test : forall x : number,
  (isNaN x || PrimFloat.leb x 0) = negb (PrimFloat.ltb 0 x).
Proof.
  intros x. unfold isNaN, PrimFloat.is_nan.
  rewrite FloatAxioms.eqb_spec, leb_spec, ltb_spec.
  change (Prim2SF 0) with (S754_zero false).
  unfold SFeqb, SFleb, SFltb.
  destruct (Prim2SF x) as [sg | sg | | sg m e].
  - reflexivity.
  - destruct sg; reflexivity.
  - reflexivity.
  - rewrite SFcompare_refl_finite. destruct sg; reflexivity.
Qed.

Lemma classRepeat3_shape : forall t,
  currencyRegex_test t = true ->
  exists a b c, t = [a; b; c] /\ isUpperLetter a = true
                /\ isUpperLetter b = true /\ isUpperLetter c = true.
Proof.
  intros t H. unfold currencyRegex_test in H.
  destruct t as [| a [| b [| c [| d t]]]]; simpl in H; try discriminate H.
  - destruct (isUpperLetter a); discriminate H.
  - destruct (isUpperLetter a), (isUpperLetter b); discriminate H.
  - exists a, b, c. destruct (isUpperLetter a), (isUpperLetter b), (isUpperLetter c);
      try discriminate H; auto.
  - destruct (isUpperLetter a), (isUpperLetter b), (isUpperLetter c); discriminate H.
Qed.

Lemma upperUnit_upper : forall c, isUpperLetter c = true -> upperUnit c = c.
Proof.
  intros c H. unfold isUpperLetter in H. unfold upperUnit.
  apply andb_true_iff in H. destruct H as [_ H]. apply N.leb_le in H.
  destruct (N.leb_spec 97 c) as [L | L]; simpl; [lia | reflexivity].
Qed.

Lemma upper_lt128 : forall c, isUpperLetter c = true -> (c <? 128)%N = true.
Proof.
  intros c H. unfold isUpperLetter in H.
  apply andb_true_iff in H. destruct H as [_ H]. apply N.leb_le in H.
  apply N.ltb_lt. lia.
Qed.

(** A code accepted by the regular expression is its own upper-casing. *)
Lemma toUpperCase_code : forall t,
  currencyRegex_test t = true -> toUpperCase t = t.
Proof.
  intros t H. destruct (classRepeat3_shape t H) as (a & b & c & -> & Ha & Hb & Hc).
  rewrite toUpperCase_ascii.
  - unfold toUpperCaseAscii; simpl. now rewrite !upperUnit_upper.
  - unfold isAscii; simpl. now rewrite !upper_lt128.
Qed.

(** ** validateInput *)

Lemma validateInput_unfold : forall s,
  validateInput s =
    if negb (currencyRegex_test (trim (baseCurrency s))) then
      (Normal false, setErrorMessage (Str (messageOf InvalidBaseCurrency)) s)
    else if negb (currencyRegex_test (trim (destCurrency s))) then
      (Normal false, setErrorMessage (Str (messageOf InvalidDestCurrency)) s)
    else if isNaN (parseFloat (amount s)) || PrimFloat.leb (parseFloat (amount s)) 0 then
      (Normal false, setErrorMessage (Str (messageOf InvalidAmount)) s)
    else (Normal true, s).
Proof.
  intros s. unfold validateInput, bind, getState, update, ret.
  destruct (negb (currencyRegex_test (trim (baseCurrency s)))); [reflexivity |].
  destruct (negb (currencyRegex_test (trim (destCurrency s)))); [reflexivity |].
  destruct (isNaN (parseFloat (amount s)) || PrimFloat.leb (parseFloat (amount s)) 0);
    reflexivity.
Qed.

Lemma passes_iff : forall s,
  passes s <->
  currencyRegex_test (trim (baseCurrency s)) = true
  /\ currencyRegex_test (trim (destCurrency s)) = true
  /\ PrimFloat.ltb 0 (parseFloat (amount s)) = true.
Proof.
  intros s. unfold passes. rewrite validateInput_unfold, amount_test.
  destruct (currencyRegex_test (trim (baseCurrency s)));
  destruct (currencyRegex_test (trim (destCurrency s)));
  destruct (PrimFloat.ltb 0 (parseFloat (amount s))); simpl;
    split; intros H; try (repeat split; reflexivity); try discriminate H;
    try (destruct H as (H1 & H2 & H3); discriminate).
Qed.

Lemma failsWith_unique : forall k k' s, failsWith k s -> failsWith k' s -> k = k'.
Proof.
  unfold failsWith. intros k k' s H H'. rewrite H in H'.
  injection H' as H'. now apply messageOf_inj.
Qed.

Lemma failsWith_base_iff : forall s,
  failsWith InvalidBaseCurrency s <-> currencyRegex_test (trim (baseCurrency s)) = false.
Proof.
  intros s. unfold failsWith. rewrite validateInput_unfold.
  destruct (currencyRegex_test (trim (baseCurrency s))); simpl.
  - split; [| discriminate].
    destruct (negb (currencyRegex_test (trim (destCurrency s)))).
    + intros H. injection H as H. vm_compute in H. discriminate H.
    + destruct (isNaN (parseFloat (amount s)) || PrimFloat.leb (parseFloat (amount s)) 0);
        intros H; [injection H as H; vm_compute in H |]; discriminate H.
  - split; reflexivity.
Qed.

Lemma failsWith_dest_iff : forall s,
  failsWith InvalidDestCurrency s <->
  currencyRegex_test (trim (baseCurrency s)) = true
  /\ currencyRegex_test (trim (destCurrency s)) = false.
Proof.
  intros s. unfold failsWith. rewrite validateInput_unfold.
  destruct (currencyRegex_test (trim (baseCurrency s))); simpl.
  - destruct (currencyRegex_test (trim (destCurrency s))); simpl.
    + split; [| intros [_ H]; discriminate H].
      destruct (isNaN (parseFloat (amount s)) || PrimFloat.leb (parseFloat (amount s)) 0);
        intros H; [injection H as H; vm_compute in H |]; discriminate H.
    + split; auto.
  - split; [| intros [H _]; discriminate H].
    intros H. injection H as H. vm_compute in H. discriminate H.
Qed.

Lemma failsWith_amount_iff : forall s,
  failsWith InvalidAmount s <->
  currencyRegex_test (trim (baseCurrency s)) = true
  /\ currencyRegex_test (trim (destCurrency s)) = true
  /\ PrimFloat.ltb 0 (parseFloat (amount s)) = false.
Proof.
  intros s. unfold failsWith. rewrite validateInput_unfold, amount_test.
  destruct (currencyRegex_test (trim (baseCurrency s))); simpl.
  - destruct (currencyRegex_test (trim (destCurrency s))); simpl.
    + destruct (PrimFloat.ltb 0 (parseFloat (amount s))); simpl.
      * split; [discriminate | intros (_ & _ & H); discriminate H].
      * split; auto.
    + split; [| intros (_ & H & _); discriminate H].
      intros H. injection H as H. vm_compute in H. discriminate H.
  - split; [| intros (H & _); discriminate H].
    intros H. injection H as H. vm_compute in H. discriminate H.
Qed.

(** ** handleConvert, path by path *)

Lemma validateInput_cleared_passes : forall s,
  passes s -> validateInput (cleared s) = (Normal true, cleared s).
Proof.
  intros s H. apply passes_iff in H. destruct H as (Hb & Hd & Ha).
  rewrite validateInput_unfold, amount_test.
  cbn [cleared baseCurrency destCurrency amount
       setExchangeRate setConvertedAmount setErrorMessage].
  rewrite Hb, Hd, Ha. reflexivity.
Qed.

Lemma validateInput_cleared_fails : forall k s,
  failsWith k s ->
  validateInput (cleared s)
  = (Normal false, setErrorMessage (Str (messageOf k)) (cleared s)).
Proof.
  intros k s H. unfold failsWith in H. rewrite validateInput_unfold in H.
  rewrite validateInput_unfold.
  cbn [cleared baseCurrency destCurrency amount
       setExchangeRate setConvertedAmount setErrorMessage].
  destruct (negb (currencyRegex_test (trim (baseCurrency s)))).
  { assert (E : InvalidBaseCurrency = k) by (apply messageOf_inj; injection H as H; exact H).
    subst k. reflexivity. }
  destruct (negb (currencyRegex_test (trim (destCurrency s)))).
  { assert (E : InvalidDestCurrency = k) by (apply messageOf_inj; injection H as H; exact H).
    subst k. reflexivity. }
  destruct (isNaN (parseFloat (amount s)) || PrimFloat.leb (parseFloat (amount s)) 0).
  { assert (E : InvalidAmount = k) by (apply messageOf_inj; injection H as H; exact H).
    subst k. reflexivity. }
  discriminate H.
Qed.

(** Validation either passes or fails with one of its three kinds. *)
Lemma validateInput_cases : forall s,
  passes s \/ failsWith InvalidBaseCurrency s
  \/ failsWith InvalidDestCurrency s \/ failsWith InvalidAmount s.
Proof.
  intros s. unfold passes, failsWith. rewrite validateInput_unfold.
  destruct (negb (currencyRegex_test (trim (baseCurrency s)))); [auto |].
  destruct (negb (currencyRegex_test (trim (destCurrency s)))); [auto |].
  destruct (isNaN (parseFloat (amount s)) || PrimFloat.leb (parseFloat (amount s)) 0);
    auto.
Qed.

(** An attempt whose validation fails ends there, with that one message. *)
Lemma attempt_invalid : forall fetch k s,
  failsWith k s ->
  attempt fetch s = setErrorMessage (Str (messageOf k)) (cleared s).
Proof.
  intros fetch k s H. unfold attempt, handleConvert, bind, update.
  fold (cleared s). rewrite (validateInput_cleared_fails H). reflexivity.
Qed.

Ltac enter_request s H :=
  let Hb := fresh "Hb" in
  let Hd := fresh "Hd" in
  unfold attempt, handleConvert;
  unfold bind at 1 2 3 4 5; unfold update at 1 2 3; unfold getState;
  fold (cleared s);
  rewrite (validateInput_cleared_passes H);
  cbn [negb cleared baseCurrency destCurrency amount
       setExchangeRate setConvertedAmount setErrorMessage];
  pose proof (proj1 (passes_iff s) H) as (Hb & Hd & _);
  rewrite (toUpperCase_code _ Hb), (toUpperCase_code _ Hd);
  fold (cleared s);
  unfold tryCatchFinally, bind, update, awaitFetch.

Lemma attempt_rejected : forall fetch s,
  passes s ->
  fetch (urlOf s) = Rejected ->
  attempt fetch s
  = setIsLoading false
      (alert (lit "Network Error") (lit "Could not connect to the currency service.")
         (setErrorMessage (Str (messageOf NetworkError))
            (setIsLoading true (cleared s)))).
Proof.
  intros fetch s H F. enter_request s H.
  unfold urlOf, requestedBase, requestedDest in F. rewrite F. reflexivity.
Qed.

Ltac answer F :=
  unfold urlOf, requestedBase, requestedDest in F; rewrite F;
  unfold awaitJson, member, times, ret, throw.

Lemma attempt_unauthorized : forall fetch s r,
  passes s ->
  fetch (urlOf s) = Responded r ->
  ok r = false ->
  status r = 401%N ->
  attempt fetch s
  = setIsLoading false
      (setErrorMessage (Str (messageOf InvalidApiKey))
         (setIsLoading true (cleared s))).
Proof.
  intros fetch s r H F Hok Hst. enter_request s H. answer F.
  rewrite Hok, Hst. reflexivity.
Qed.

Lemma attempt_http_error : forall fetch s r,
  passes s ->
  fetch (urlOf s) = Responded r ->
  ok r = false ->
  status r <> 401%N ->
  attempt fetch s
  = setIsLoading false
      (setErrorMessage
         (orElse (optProp (match json r with Some v => v | None => Null end)
                          (lit "message"))
                 (Str (requestFailedMessage (status r))))
         (setIsLoading true (cleared s))).
Proof.
  intros fetch s r H F Hok Hst. enter_request s H. answer F.
  rewrite Hok. apply N.eqb_neq in Hst. rewrite Hst. reflexivity.
Qed.

(** A 2xx response whose body is not JSON, or is the JSON value [null],
    makes the [try] block throw: the [catch] clause reports it. *)
Lemma attempt_unreadable : forall fetch s r,
  passes s ->
  fetch (urlOf s) = Responded r ->
  ok r = true ->
  match json r with Some v => isNullish v = true | None => True end ->
  attempt fetch s
  = setIsLoading false
      (alert (lit "Network Error") (lit "Could not connect to the currency service.")
         (setErrorMessage (Str (messageOf NetworkError))
            (setIsLoading true (cleared s)))).
Proof.
  intros fetch s r H F Hok Hj. enter_request s H. answer F.
  rewrite Hok. destruct (json r) as [v |]; [| reflexivity].
  cbv beta iota delta [negb]. rewrite Hj. reflexivity.
Qed.

(** The rate the handler reads from a parsed body. *)
Lemma attempt_rate : forall fetch s r v n,
  passes s ->
  fetch (urlOf s) = Responded r ->
  ok r = true ->
  json r = Some v ->
  isNullish v = false ->
  toBoolean (optProp (getProp v (lit "data")) (requestedDest s)) = true ->
  toNumber (optProp (getProp v (lit "data")) (requestedDest s)) = Some n ->
  attempt fetch s
  = setIsLoading false
      (setConvertedAmount
         (Num (parseFloat (amount s) * n)%float)
         (setExchangeRate (optProp (getProp v (lit "data")) (requestedDest s))
            (setIsLoading true (cleared s)))).
Proof.
  intros fetch s r v n H F Hok Hj Hv Hr Hn. enter_request s H. answer F.
  rewrite Hok, Hj. cbv beta iota delta [negb]. rewrite Hv.
  cbv beta iota. unfold requestedDest in Hr, Hn. rewrite Hr, Hn. reflexivity.
Qed.

(** A truthy rate that cannot be converted to a Number is stored, and the
    multiplication throws: the [catch] clause reports it. *)
Lemma attempt_rate_throws : forall fetch s r v,
  passes s ->
  fetch (urlOf s) = Responded r ->
  ok r = true ->
  json r = Some v ->
  isNullish v = false ->
  toBoolean (optProp (getProp v (lit "data")) (requestedDest s)) = true ->
  toNumber (optProp (getProp v (lit "data")) (requestedDest s)) = None ->
  attempt fetch s
  = setIsLoading false
      (alert (lit "Network Error") (lit "Could not connect to the currency service.")
         (setErrorMessage (Str (messageOf NetworkError))
            (setExchangeRate (optProp (getProp v (lit "data")) (requestedDest s))
               (setIsLoading true (cleared s))))).
Proof.
  intros fetch s r v H F Hok Hj Hv Hr Hn. enter_request s H. answer F.
  rewrite Hok, Hj. cbv beta iota delta [negb]. rewrite Hv.
  cbv beta iota. unfold requestedDest in Hr, Hn. rewrite Hr, Hn. reflexivity.
Qed.

Lemma attempt_no_rate : forall fetch s r v,
  passes s ->
  fetch (urlOf s) = Responded r ->
  ok r = true ->
  json r = Some v ->
  isNullish v = false ->
  toBoolean (optProp (getProp v (lit "data")) (requestedDest s)) = false ->
  attempt fetch s
  = setIsLoading false
      (setErrorMessage (Str (messageOf UnknownCurrencyOrRate))
         (setIsLoading true (cleared s))).
Proof.
  intros fetch s r v H F Hok Hj Hv Hr. enter_request s H. answer F.
  rewrite Hok, Hj. cbv beta iota delta [negb]. rewrite Hv.
  cbv beta iota. unfold requestedDest in Hr. rewrite Hr. reflexivity.
Qed.

(** ** handleConvert, as a whole *)

Ltac reduce_cells :=
  cbv beta iota delta [baseCurrency destCurrency amount convertedAmount
    exchangeRate errorMessage isLoading alerts outcome snd orElse
    setConvertedAmount setExchangeRate setErrorMessage setIsLoading alert];
  cbn [negb].

Ltac run_handler :=
  unfold attempt, handleConvert, validateInput, tryCatchFinally, awaitFetch,
    awaitJson, member, times, bind, update, getState, ret, throw;
  reduce_cells.

Ltac split_handler :=
  repeat (match goal with
          | |- context [if ?c then _ else _] => destruct c eqn:?
          | |- context [match ?x with Rejected => _ | Responded _ => _ end] =>
              destruct x eqn:?
          | |- context [match ?x with Some _ => _ | None => _ end] =>
              destruct x eqn:?
          end; reduce_cells).

(** No path of the handler writes to the three input cells. *)
Lemma attempt_inputs : forall fetch s,
  baseCurrency (attempt fetch s) = baseCurrency s
  /\ destCurrency (attempt fetch s) = destCurrency s
  /\ amount (attempt fetch s) = amount s.
Proof.
  intros fetch [b d a c e m l al]. run_handler. split_handler; auto.
Qed.

(** What an attempt leaves in the result and error cells is a function of
    the three input cells and of the provider alone. *)
Lemma outcome_inputs : forall fetch s s',
  baseCurrency s = baseCurrency s' ->
  destCurrency s = destCurrency s' ->
  amount s = amount s' ->
  outcome (attempt fetch s) = outcome (attempt fetch s').
Proof.
  intros fetch [b d a c e m l al] [b' d' a' c' e' m' l' al']; simpl.
  intros <- <- <-. run_handler. split_handler; reflexivity.
Qed.


Lemma toNumber_None : forall v, toNumber v = None <-> primitiveThrows v = true.
Proof.
  intros v. destruct v as [| | [|] | x | t | l | p]; cbn [toNumber];
    try (split; intros E; discriminate E);
    destruct (primitiveThrows _); split; intros E; try reflexivity; discriminate E.
Qed.


(** The successful path for a rate that is a Number. *)
Lemma attempt_number_rate : forall fetch s r body rate,
  passes s ->
  fetch (urlOf s) = Responded r ->
  ok r = true ->
  json r = Some body ->
  getProp (getProp body (lit "data")) (requestedDest s) = Num rate ->
  toBoolean (Num rate) = true ->
  attempt fetch s
  = setIsLoading false
      (setConvertedAmount (Num (parseFloat (amount s) * rate)%float)
         (setExchangeRate (Num rate) (setIsLoading true (cleared s)))).
Proof.
  intros fetch s r body rate H F Hok Hj Hr Ht.
  assert (Hn : isNullish body = false)
    by (destruct body; simpl in Hr; try discriminate Hr; reflexivity).
  assert (Ho : optProp (getProp body (lit "data")) (requestedDest s) = Num rate).
  { unfold optProp. destruct (getProp body (lit "data")); simpl in *;
      try discriminate Hr; exact Hr. }
  assert (Hb : toBoolean (optProp (getProp body (lit "data")) (requestedDest s)) = true)
    by (rewrite Ho; exact Ht).
  assert (Hx : toNumber (optProp (getProp body (lit "data")) (requestedDest s)) = Some rate)
    by (rewrite Ho; reflexivity).
  rewrite (attempt_rate fetch H F Hok Hj Hn Hb Hx), Ho. reflexivity.
Qed.

(** ** parseFloat on a run of digits followed by something else *)

Lemma digit_facts : forall c,
  isDigit c = true ->
  isWhiteSpace c = false /\ (c =? 43)%N = false /\ (c =? 45)%N = false
  /\ unit_eqb 73 c = false.
Proof.
  intros c H. unfold isDigit in H. apply andb_true_iff in H.
  destruct H as [H1 H2]. apply N.leb_le in H1, H2.
  assert (E : (c = 48 \/ c = 49 \/ c = 50 \/ c = 51 \/ c = 52 \/ c = 53
               \/ c = 54 \/ c = 55 \/ c = 56 \/ c = 57)%N) by lia.
  repeat (destruct E as [E | E]; [subst c; repeat split; reflexivity |]).
  subst c; repeat split; reflexivity.
Qed.

Lemma readDigits_digits : forall ds acc len,
  forallb isDigit ds = true ->
  exists v, readDigits acc len ds = (v, (len + List.length ds)%nat, []).
Proof.
  induction ds as [| c ds IH]; intros acc len H;
    cbn [readDigits forallb List.length] in *.
  - exists acc. now rewrite Nat.add_0_r.
  - apply andb_true_iff in H. destruct H as [Hc Hds]. rewrite Hc.
    destruct (IH (10 * acc + digitValue c)%N (S len) Hds) as [v E].
    exists v. rewrite E. now rewrite Nat.add_succ_r.
Qed.

Lemma readDigits_app : forall ds junk acc len,
  forallb isDigit ds = true ->
  endsNumber junk = true ->
  readDigits acc len (ds ++ junk)%list
  = (fst (fst (readDigits acc len ds)), snd (fst (readDigits acc len ds)), junk).
Proof.
  induction ds as [| c ds IH]; intros junk acc len H J;
    cbn [readDigits forallb app fst snd] in *.
  - destruct junk as [| j junk]; [reflexivity |].
    cbn [readDigits endsNumber] in *.
    destruct (isDigit j); [discriminate J | reflexivity].
  - apply andb_true_iff in H. destruct H as [Hc Hds]. rewrite Hc. now apply IH.
Qed.

Lemma readExponent_junk : forall junk,
  endsNumber junk = true -> readExponent junk = 0%Z.
Proof.
  intros [| j junk] J; [reflexivity |]. simpl in *.
  apply negb_true_iff in J. rewrite !orb_false_iff in J.
  destruct J as [[[_ _] J1] J2]. now rewrite J1, J2.
Qed.

(** [parseFloat] reads the digits and ignores what follows them. *)
Lemma parseFloat_digits_app : forall ds junk,
  ds <> [] ->
  forallb isDigit ds = true ->
  endsNumber junk = true ->
  parseFloat (ds ++ junk)%list = parseFloat ds.
Proof.
  intros [| c ds] junk N H J; [now elim N |].
  pose proof H as H'. simpl in H'. apply andb_true_iff in H'.
  destruct H' as [Hc _]. destruct (digit_facts c Hc) as (W & P & M & I).
  assert (R : forall rest, parseFloat (c :: rest) = readUnsigned false (c :: rest)).
  { intros rest. unfold parseFloat. simpl trimStart. now rewrite W, P, M. }
  change ((c :: ds) ++ junk)%list with (c :: (ds ++ junk))%list.
  rewrite !R. unfold readUnsigned.
  change (startsWith (lit "Infinity") (c :: ds ++ junk)%list)
    with (unit_eqb 73 c && startsWith (lit "nfinity") (ds ++ junk)%list).
  change (startsWith (lit "Infinity") (c :: ds))
    with (unit_eqb 73 c && startsWith (lit "nfinity") ds).
  rewrite I. cbv beta iota delta [andb].
  change (c :: ds ++ junk)%list with ((c :: ds) ++ junk)%list.
  rewrite (readDigits_app (c :: ds) junk 0 0 H J).
  destruct (readDigits_digits (c :: ds) 0 0 H) as [v E]. rewrite E.
  cbn [fst snd length Nat.add].
  destruct junk as [| j junk]; [reflexivity |].
  rewrite (readExponent_junk (j :: junk) J).
  simpl in J. apply negb_true_iff in J. rewrite !orb_false_iff in J.
  destruct J as [[[_ J] _] _]. now rewrite J.
Qed.

Lemma getProp_Num_optProp : forall v k x, getProp v k = Num x -> optProp v k = Num x.
Proof.
  intros v k x H. unfold optProp. destruct v; simpl in *; try discriminate H; exact H.
Qed.

Lemma getProp_Num_body : forall v k k' x,
  getProp (getProp v k) k' = Num x -> isNullish v = false.
Proof.
  intros v k k' x H. destruct v; simpl in *; try discriminate H; reflexivity.
Qed.

(** ** Upper-casing and trimming *)

Lemma forallb_rev : forall (f : N -> bool) l, forallb f l = true -> forallb f (rev l) = true.
Proof.
  intros f l H. rewrite forallb_forall in *. intros x X. apply H. now apply in_rev.
Qed.

Lemma letter_not_space : forall c,
  (65 <= c)%N -> (c <= 122)%N -> isWhiteSpace c = false.
Proof.
  intros c H1 H2. unfold isWhiteSpace.
  repeat apply orb_false_intro;
    try (apply N.eqb_neq; lia);
    apply andb_false_iff;
    ((left; apply N.leb_gt; lia) || (right; apply N.leb_gt; lia)).
Qed.

(** Upper-casing neither makes nor removes white space. *)
Lemma upperUnit_space : forall c, isWhiteSpace (upperUnit c) = isWhiteSpace c.
Proof.
  intros c. unfold upperUnit.
  destruct (N.leb_spec 97 c) as [L1 | L1]; [| reflexivity].
  destruct (N.leb_spec c 122) as [L2 | L2]; [| reflexivity]. cbn [andb].
  rewrite (@letter_not_space c), (@letter_not_space (c - 32)) by lia. reflexivity.
Qed.

Lemma upperUnit_idem : forall c, upperUnit (upperUnit c) = upperUnit c.
Proof.
  intros c. unfold upperUnit.
  destruct ((97 <=? c) && (c <=? 122))%N eqn:E.
  - apply andb_true_iff in E. destruct E as [_ E]. apply N.leb_le in E.
    destruct (N.leb_spec 97 (c - 32)); [lia | reflexivity].
  - now rewrite E.
Qed.

Lemma upperUnit_ascii : forall c, (c <? 128)%N = true -> (upperUnit c <? 128)%N = true.
Proof.
  intros c H. apply N.ltb_lt in H. apply N.ltb_lt. unfold upperUnit.
  destruct ((97 <=? c) && (c <=? 122))%N; lia.
Qed.

Lemma trimStart_upper : forall s,
  trimStart (map upperUnit s) = map upperUnit (trimStart s).
Proof.
  induction s as [| c s IH]; [reflexivity |]. cbn [map trimStart].
  rewrite upperUnit_space. destruct (isWhiteSpace c); [exact IH | reflexivity].
Qed.

Lemma trim_toUpperCaseAscii : forall s,
  toUpperCaseAscii (trim s) = trim (toUpperCaseAscii s).
Proof.
  intros s. unfold trim, trimEnd, toUpperCaseAscii.
  rewrite trimStart_upper, <- map_rev, trimStart_upper, map_rev. reflexivity.
Qed.

Lemma isAscii_trimStart : forall s, isAscii s = true -> isAscii (trimStart s) = true.
Proof.
  induction s as [| c s IH]; intros H; [reflexivity |]. cbn [trimStart].
  destruct (isWhiteSpace c); [| exact H].
  apply IH. unfold isAscii in H |- *. cbn [forallb] in H. apply andb_true_iff in H. tauto.
Qed.

Lemma isAscii_trim : forall s, isAscii s = true -> isAscii (trim s) = true.
Proof.
  intros s H. unfold trim, trimEnd, isAscii. apply forallb_rev.
  apply isAscii_trimStart. apply forallb_rev. now apply isAscii_trimStart.
Qed.

Lemma isAscii_upper : forall s, isAscii s = true -> isAscii (toUpperCaseAscii s) = true.
Proof.
  induction s as [| c s IH]; intros H; [reflexivity |].
  unfold isAscii, toUpperCaseAscii in H, IH |- *. cbn [map forallb] in H |- *.
  apply andb_true_iff in H. destruct H as [Hc Hs].
  rewrite (@upperUnit_ascii _ Hc). now apply IH.
Qed.

(** On Basic Latin text, trimming then upper-casing is upper-casing then
    trimming. *)
Lemma toUpperCase_trim : forall text,
  isAscii text = true -> toUpperCase (trim text) = trim (toUpperCase text).
Proof.
  intros text A.
  rewrite (toUpperCase_ascii _ (@isAscii_trim _ A)), (toUpperCase_ascii _ A).
  apply trim_toUpperCaseAscii.
Qed.

(** What a change handler stored is not changed by upper-casing it again. *)
Lemma toUpperCase_stored : forall text,
  isAscii text = true ->
  toUpperCase (trim (toUpperCase text)) = trim (toUpperCase text).
Proof.
  intros text A. rewrite (toUpperCase_ascii _ A).
  rewrite (toUpperCase_ascii _ (@isAscii_trim _ (@isAscii_upper _ A))).
  rewrite trim_toUpperCaseAscii. f_equal.
  unfold toUpperCaseAscii. rewrite map_map. apply map_ext. apply upperUnit_idem.
Qed.

(** C2: the currency check trims and upper-cases.  The upper-casing is done
    by the change handler of the field, the only writer of the cell, and the
    trimming by [validateInput].  For text typed into the base
    (respectively destination) field that matches the pattern once trimmed
    and upper-cased, validation does not fail with InvalidBaseCurrency
    (respectively InvalidDestCurrency); and the same holds of the code such
    a handler stored, trimmed and upper-cased again.  This is proved for
    Basic Latin text, and for any text from the fact that upper-casing and
    trimming commute.  In terms of the cells: validation does not fail on a
    code that matches once trimmed, and what a handler stores is matched
    once trimmed. *)
Theorem validate_trims_codes : forall s,
  (forall text, isAscii text = true ->
     currencyRegex_test (toUpperCase (trim text)) = true ->
     ~ failsWith InvalidBaseCurrency (onChangeBase toUpperCase text s))
  /\ (forall text, isAscii text = true ->
     currencyRegex_test (toUpperCase (trim text)) = true ->
     ~ failsWith InvalidDestCurrency (onChangeDest toUpperCase text s))
  /\ (forall text, isAscii text = true ->
     baseCurrency s = toUpperCase text ->
     currencyRegex_test (toUpperCase (trim (baseCurrency s))) = true ->
     ~ failsWith InvalidBaseCurrency s)
  /\ (forall text, isAscii text = true ->
     destCurrency s = toUpperCase text ->
     currencyRegex_test (toUpperCase (trim (destCurrency s))) = true ->
     ~ failsWith InvalidDestCurrency s)
  /\ ((forall t, toUpperCase (trim t) = trim (toUpperCase t)) ->
      forall text, currencyRegex_test (toUpperCase (trim text)) = true ->
      ~ failsWith InvalidBaseCurrency (onChangeBase toUpperCase text s)
      /\ ~ failsWith InvalidDestCurrency (onChangeDest toUpperCase text s))
  /\ (currencyRegex_test (trim (baseCurrency s)) = true ->
     ~ failsWith InvalidBaseCurrency s)
  /\ (currencyRegex_test (trim (destCurrency s)) = true ->
     ~ failsWith InvalidDestCurrency s)
  /\ (forall text, currencyRegex_test (trim (toUpperCase text)) = true ->
     ~ failsWith InvalidBaseCurrency (onChangeBase toUpperCase text s))
  /\ (forall text, currencyRegex_test (trim (toUpperCase text)) = true ->
     ~ failsWith InvalidDestCurrency (onChangeDest toUpperCase text s)).
Proof.
  intros s.
  assert (B : forall s', currencyRegex_test (trim (baseCurrency s')) = true ->
                         ~ failsWith InvalidBaseCurrency s').
  { intros s' H F. apply failsWith_base_iff in F. congruence. }
  assert (D : forall s', currencyRegex_test (trim (destCurrency s')) = true ->
                         ~ failsWith InvalidDestCurrency s').
  { intros s' H F. apply failsWith_dest_iff in F. destruct F as [_ F]. congruence. }
  split; [| split; [| split; [| split; [| split; [| split; [| split; [| split]]]]]]].
  - intros text A H. apply B.
    change (currencyRegex_test (trim (toUpperCase text)) = true).
    now rewrite <- toUpperCase_trim.
  - intros text A H. apply D.
    change (currencyRegex_test (trim (toUpperCase text)) = true).
    now rewrite <- toUpperCase_trim.
  - intros text A E H. apply B. rewrite E in H |- *. now rewrite toUpperCase_stored in H.
  - intros text A E H. apply D. rewrite E in H |- *. now rewrite toUpperCase_stored in H.
  - intros C text H. split; [apply B | apply D];
      change (currencyRegex_test (trim (toUpperCase text)) = true); now rewrite <- C.
  - apply B.
  - apply D.
  - intros text H. apply B. exact H.
  - intros text H. apply D. exact H.
Qed.

(** C3: the checks run in a fixed order and stop at the first failure.  A
    base code that does not match is reported whatever the destination code
    and the amount are (so also when both codes are invalid, and also when
    it would not match after upper-casing either); the destination code is
    reported only when the base code matched; the amount is reported only
    when both codes matched; and a failed validation reports one kind. *)
Theorem validation_order : forall s,
  (currencyRegex_test (trim (baseCurrency s)) = false ->
     failsWith InvalidBaseCurrency s)
  /\ (currencyRegex_test (toUpperCase (trim (baseCurrency s))) = false ->
     failsWith InvalidBaseCurrency s)
  /\ (currencyRegex_test (trim (baseCurrency s)) = true ->
     currencyRegex_test (trim (destCurrency s)) = false ->
     failsWith InvalidDestCurrency s)
  /\ (failsWith InvalidDestCurrency s ->
     currencyRegex_test (trim (baseCurrency s)) = true)
  /\ (failsWith InvalidAmount s ->
     currencyRegex_test (trim (baseCurrency s)) = true
     /\ currencyRegex_test (trim (destCurrency s)) = true)
  /\ (forall k k', failsWith k s -> failsWith k' s -> k = k').
Proof.
  intros s. repeat split.
  - intros H. now apply failsWith_base_iff.
  - intros H. apply failsWith_base_iff.
    destruct (currencyRegex_test (trim (baseCurrency s))) eqn:E; [| reflexivity].
    rewrite (toUpperCase_code _ E) in H. congruence.
  - intros Hb Hd. now apply failsWith_dest_iff.
  - intros F. now apply failsWith_dest_iff in F.
  - apply failsWith_amount_iff in H. tauto.
  - apply failsWith_amount_iff in H. tauto.
  - intros k k'. apply failsWith_unique.
Qed.

(** C4 (as amended): once both currency codes match, validation fails with
    InvalidAmount exactly when the amount parses to NaN or to a value [<= 0],
    and passes exactly when it parses to a value strictly greater than 0.
    There is no finiteness check: an amount that parses to +Infinity
    passes. *)
Theorem validate_amount : forall s,
  currencyRegex_test (trim (baseCurrency s)) = true ->
  currencyRegex_test (trim (destCurrency s)) = true ->
  (failsWith InvalidAmount s <->
     isNaN (parseFloat (amount s)) = true
     \/ PrimFloat.leb (parseFloat (amount s)) 0 = true)
  /\ (passes s <-> PrimFloat.ltb 0 (parseFloat (amount s)) = true)
  /\ (parseFloat (amount s) = infinity -> passes s).
Proof.
  intros s Hb Hd. split; [| split].
  - rewrite failsWith_amount_iff, <- orb_true_iff, amount_test, negb_true_iff. tauto.
  - rewrite passes_iff. tauto.
  - intros E. apply passes_iff. rewrite E. auto.
Qed.

(** C1: for a state that passed validation and a 2xx response whose body has
    a [data] object mapping the requested destination currency to a truthy
    Number [rate], the attempt stores that rate, stores the parsed amount
    multiplied by it as the converted amount, and leaves no error message. *)
Theorem convert_success : forall fetch s r body rate,
  passes s ->
  fetch (urlOf s) = Responded r ->
  ok r = true ->
  json r = Some body ->
  getProp (getProp body (lit "data")) (requestedDest s) = Num rate ->
  toBoolean (Num rate) = true ->
  outcome (attempt fetch s)
  = (Num rate, Num (parseFloat (amount s) * rate)%float, Str []).
Proof.
  intros fetch s r body rate H F Hok Hj Hr Ht.
  rewrite (attempt_number_rate fetch H F Hok Hj Hr Ht). reflexivity.
Qed.

(** C5 (as amended): for a 2xx response whose body parses as JSON to a value
    other than null, the attempt ends with the UnknownCurrencyOrRate message
    exactly when the [data] entry for the requested destination currency
    is not truthy; this covers an absent entry and the rate 0, and then no
    result is stored. *)
Theorem unknown_rate_iff : forall fetch s r body,
  passes s ->
  fetch (urlOf s) = Responded r ->
  ok r = true ->
  json r = Some body ->
  isNullish body = false ->
  (errorMessage (attempt fetch s) = Str (messageOf UnknownCurrencyOrRate)
   <-> toBoolean (optProp (getProp body (lit "data")) (requestedDest s)) = false)
  /\ (optProp (getProp body (lit "data")) (requestedDest s) = Undefined ->
      outcome (attempt fetch s) = (Null, Null, Str (messageOf UnknownCurrencyOrRate)))
  /\ (optProp (getProp body (lit "data")) (requestedDest s) = Num 0%float ->
      outcome (attempt fetch s) = (Null, Null, Str (messageOf UnknownCurrencyOrRate))).
Proof.
  intros fetch s r body H F Hok Hj Hn.
  assert (A : toBoolean (optProp (getProp body (lit "data")) (requestedDest s)) = false ->
              outcome (attempt fetch s)
              = (Null, Null, Str (messageOf UnknownCurrencyOrRate))).
  { intros Hr. rewrite (attempt_no_rate fetch H F Hok Hj Hn Hr). reflexivity. }
  split; [split | split].
  - destruct (toBoolean (optProp (getProp body (lit "data")) (requestedDest s))) eqn:Hr;
      [| reflexivity].
    destruct (toNumber (optProp (getProp body (lit "data")) (requestedDest s)))
      as [n |] eqn:Hx.
    + rewrite (attempt_rate fetch H F Hok Hj Hn Hr Hx). intros E. discriminate E.
    + rewrite (attempt_rate_throws fetch H F Hok Hj Hn Hr Hx). intros E. discriminate E.
  - intros Hr. apply A in Hr. unfold outcome in Hr. congruence.
  - intros E. apply A. rewrite E. reflexivity.
  - intros E. apply A. rewrite E. reflexivity.
Qed.

(** C6 (as amended): for a response with a non-2xx status, status 401
    gives the InvalidApiKey message whatever the body is; any other status
    gives the body's [message] property when the body parses as JSON and
    that property is truthy, and otherwise the generic message
    [Request failed with status N.] with the decimal status code. *)
Theorem http_error_mapping : forall fetch s r,
  passes s ->
  fetch (urlOf s) = Responded r ->
  ok r = false ->
  (status r = 401%N ->
   outcome (attempt fetch s) = (Null, Null, Str (messageOf InvalidApiKey)))
  /\ (status r <> 401%N ->
      forall body, json r = Some body ->
      toBoolean (optProp body (lit "message")) = true ->
      outcome (attempt fetch s) = (Null, Null, optProp body (lit "message")))
  /\ (status r <> 401%N ->
      forall body, json r = Some body ->
      toBoolean (optProp body (lit "message")) = false ->
      outcome (attempt fetch s)
      = (Null, Null,
         Str (lit "Request failed with status " ++ decimal (status r) ++ lit ".")%list))
  /\ (status r <> 401%N ->
      json r = None ->
      outcome (attempt fetch s)
      = (Null, Null,
         Str (lit "Request failed with status " ++ decimal (status r) ++ lit ".")%list)).
Proof.
  intros fetch s r H F Hok. split; [| split; [| split]].
  - intros Hst. rewrite (attempt_unauthorized fetch H F Hok Hst). reflexivity.
  - intros Hst body Hj Hm. rewrite (attempt_http_error fetch H F Hok Hst), Hj.
    unfold outcome, orElse; simpl. now rewrite Hm.
  - intros Hst body Hj Hm. rewrite (attempt_http_error fetch H F Hok Hst), Hj.
    unfold outcome, orElse; simpl. now rewrite Hm.
  - intros Hst Hj. rewrite (attempt_http_error fetch H F Hok Hst), Hj. reflexivity.
Qed.

(** C7: when the request is rejected and no response is received, the
    attempt ends with the NetworkError message and no result. *)
Theorem transport_failure : forall fetch s,
  passes s ->
  fetch (urlOf s) = Rejected ->
  outcome (attempt fetch s) = (Null, Null, Str (messageOf NetworkError)).
Proof.
  intros fetch s H F. rewrite (attempt_rejected fetch H F). reflexivity.
Qed.


(** C9: the outcome of an attempt is determined by the three input cells
    and the provider's answer: two states that agree on the inputs give the
    same outcome, whatever else they hold, and invoking the handler again on
    the state the first attempt left gives the same outcome once more. *)
Theorem convert_deterministic : forall fetch s1 s2,
  baseCurrency s1 = baseCurrency s2 ->
  destCurrency s1 = destCurrency s2 ->
  amount s1 = amount s2 ->
  outcome (attempt fetch s1) = outcome (attempt fetch s2)
  /\ outcome (attempt fetch (attempt fetch s1)) = outcome (attempt fetch s1).
Proof.
  intros fetch s1 s2 Hb Hd Ha. split.
  - now apply outcome_inputs.
  - destruct (attempt_inputs fetch s1) as (Eb & Ed & Ea). now apply outcome_inputs.
Qed.


(** * Further properties of the handlers *)

(** X1: no attempt writes to the three input cells: whatever the provider
    does, the base code, the destination code and the amount text are
    afterwards what they were. *)
Theorem attempt_keeps_inputs : forall fetch s,
  baseCurrency (attempt fetch s) = baseCurrency s
  /\ destCurrency (attempt fetch s) = destCurrency s
  /\ amount (attempt fetch s) = amount s.
Proof. exact attempt_inputs. Qed.

(** X2: when validation fails no request is made: the settled screen is
    the same for every provider, the busy flag and the alerts are untouched,
    and the outcome is the validation message alone. *)
Theorem invalid_input_no_request : forall k s fetch fetch',
  failsWith k s ->
  attempt fetch s = attempt fetch' s
  /\ isLoading (attempt fetch s) = isLoading s
  /\ alerts (attempt fetch s) = alerts s
  /\ outcome (attempt fetch s) = (Null, Null, Str (messageOf k)).
Proof.
  intros k s fetch fetch' H.
  rewrite (attempt_invalid fetch H), (attempt_invalid fetch' H).
  repeat split; reflexivity.
Qed.

(** X3: an attempt that passed validation consults the provider at one URL
    only, the one built from the trimmed codes: two providers that agree
    there leave the same screen. *)
Theorem request_single_url : forall fetch fetch' s,
  passes s ->
  fetch (urlOf s) = fetch' (urlOf s) ->
  attempt fetch s = attempt fetch' s.
Proof.
  intros fetch fetch' s H E.
  destruct (fetch (urlOf s)) as [| r] eqn:F; symmetry in E.
  - rewrite (attempt_rejected fetch H F), (attempt_rejected fetch' H E). reflexivity.
  - destruct (ok r) eqn:Hok.
    + destruct (json r) as [v |] eqn:Hj.
      * destruct (isNullish v) eqn:Hn.
        -- assert (U : match json r with Some v => isNullish v = true | None => True end)
             by now rewrite Hj.
           rewrite (attempt_unreadable fetch H F Hok U),
                   (attempt_unreadable fetch' H E Hok U). reflexivity.
        -- destruct (toBoolean (optProp (getProp v (lit "data")) (requestedDest s))) eqn:Hr.
           ++ destruct (toNumber (optProp (getProp v (lit "data")) (requestedDest s)))
                as [n |] eqn:Hx.
              ** rewrite (attempt_rate fetch H F Hok Hj Hn Hr Hx),
                         (attempt_rate fetch' H E Hok Hj Hn Hr Hx). reflexivity.
              ** rewrite (attempt_rate_throws fetch H F Hok Hj Hn Hr Hx),
                         (attempt_rate_throws fetch' H E Hok Hj Hn Hr Hx). reflexivity.
           ++ rewrite (attempt_no_rate fetch H F Hok Hj Hn Hr),
                      (attempt_no_rate fetch' H E Hok Hj Hn Hr). reflexivity.
      * assert (U : match json r with Some v => isNullish v = true | None => True end)
          by now rewrite Hj.
        rewrite (attempt_unreadable fetch H F Hok U),
                (attempt_unreadable fetch' H E Hok U). reflexivity.
    + destruct (N.eq_dec (status r) 401) as [Hst | Hst].
      * rewrite (attempt_unauthorized fetch H F Hok Hst),
                (attempt_unauthorized fetch' H E Hok Hst). reflexivity.
      * rewrite (attempt_http_error fetch H F Hok Hst),
                (attempt_http_error fetch' H E Hok Hst). reflexivity.
Qed.

(** X4: the [finally] clause always runs: an attempt that passed validation
    ends with the busy flag lowered, whatever the flag was and whatever the
    provider did; an attempt started with the flag lowered ends with it
    lowered on every path. *)
Theorem busy_flag_lowered : forall fetch s,
  (passes s -> isLoading (attempt fetch s) = false)
  /\ (isLoading s = false -> isLoading (attempt fetch s) = false).
Proof.
  intros fetch [b d a c e m l al]. split.
  - intros H. apply passes_iff in H. simpl in H. destruct H as (Hb & Hd & Ha).
    run_handler. rewrite Hb, Hd, amount_test, Ha. cbn [negb].
    split_handler; reflexivity.
  - simpl. intros ->. run_handler. split_handler; reflexivity.
Qed.

(** X5: the alert is raised exactly on the [catch] path.  An attempt that
    passed validation appends the one network alert when the request is
    rejected, when the body of a 2xx response cannot be read, or when its
    rate is truthy and the multiplication by it throws, and then the
    message is the NetworkError one; on every other path, and when
    validation fails, the alerts are left as they were. *)
Theorem alert_exactly_on_catch : forall fetch s,
  (passes s -> requestThrows fetch s = true ->
   alerts (attempt fetch s)
   = (alerts s ++ [(lit "Network Error",
                    lit "Could not connect to the currency service.")])%list
   /\ errorMessage (attempt fetch s) = Str (messageOf NetworkError))
  /\ (passes s -> requestThrows fetch s = false ->
      alerts (attempt fetch s) = alerts s)
  /\ (forall k, failsWith k s -> alerts (attempt fetch s) = alerts s).
Proof.
  intros fetch s. unfold requestThrows, bodyThrows, productThrows. split; [| split].
  - intros H T. destruct (fetch (urlOf s)) as [| r] eqn:F.
    + rewrite (attempt_rejected fetch H F). split; reflexivity.
    + apply andb_true_iff in T. destruct T as [Hok T].
      destruct (json r) as [v |] eqn:Hj.
      * destruct (isNullish v) eqn:Hn.
        -- assert (U : match json r with Some v => isNullish v = true | None => True end)
             by now rewrite Hj.
           rewrite (attempt_unreadable fetch H F Hok U). split; reflexivity.
        -- cbn [orb negb andb] in T. apply andb_true_iff in T. destruct T as [Hr P].
           apply toNumber_None in P.
           rewrite (attempt_rate_throws fetch H F Hok Hj Hn Hr P). split; reflexivity.
      * assert (U : match json r with Some v => isNullish v = true | None => True end)
          by now rewrite Hj.
        rewrite (attempt_unreadable fetch H F Hok U). split; reflexivity.
  - intros H T. destruct (fetch (urlOf s)) as [| r] eqn:F; [discriminate T |].
    destruct (ok r) eqn:Hok.
    + cbn [andb] in T. destruct (json r) as [v |] eqn:Hj; [| discriminate T].
      destruct (isNullish v) eqn:Hn; [discriminate T |]. cbn [orb negb andb] in T.
      destruct (toBoolean (optProp (getProp v (lit "data")) (requestedDest s))) eqn:Hr.
      * cbn [andb] in T.
        destruct (toNumber (optProp (getProp v (lit "data")) (requestedDest s)))
          as [n |] eqn:Hx.
        -- rewrite (attempt_rate fetch H F Hok Hj Hn Hr Hx). reflexivity.
        -- apply toNumber_None in Hx. congruence.
      * rewrite (attempt_no_rate fetch H F Hok Hj Hn Hr). reflexivity.
    + destruct (N.eq_dec (status r) 401) as [Hst | Hst].
      * rewrite (attempt_unauthorized fetch H F Hok Hst). reflexivity.
      * rewrite (attempt_http_error fetch H F Hok Hst). reflexivity.
  - intros k H. rewrite (attempt_invalid fetch H). reflexivity.
Qed.

(** ** The codes and the request *)

Lemma regex_shape : forall t,
  currencyRegex_test t = true
  <-> List.length t = 3%nat /\ forallb isUpperLetter t = true.
Proof.
  intros t. split.
  - intros H. destruct (classRepeat3_shape t H) as (a & b & c & -> & Ha & Hb & Hc).
    simpl. now rewrite Ha, Hb, Hc.
  - intros [L U]. destruct t as [| a [| b [| c [| d t]]]]; try discriminate L.
    simpl in U. unfold currencyRegex_test. simpl.
    destruct (isUpperLetter a), (isUpperLetter b), (isUpperLetter c);
      try discriminate U; reflexivity.
Qed.

(** X6: the pattern accepts exactly the strings of three code units that
    are all in A-Z; so a base code whose trimmed length is not three, or
    that holds a code unit outside A-Z, is reported as InvalidBaseCurrency
    whatever the other fields hold. *)
Theorem code_shape : forall s,
  (currencyRegex_test (trim (baseCurrency s)) = true
   <-> List.length (trim (baseCurrency s)) = 3%nat
       /\ forallb isUpperLetter (trim (baseCurrency s)) = true)
  /\ (List.length (trim (baseCurrency s)) <> 3%nat -> failsWith InvalidBaseCurrency s)
  /\ (forallb isUpperLetter (trim (baseCurrency s)) = false ->
      failsWith InvalidBaseCurrency s).
Proof.
  intros s. split; [apply regex_shape | split].
  - intros L. apply failsWith_base_iff.
    destruct (currencyRegex_test (trim (baseCurrency s))) eqn:E; [| reflexivity].
    apply regex_shape in E. tauto.
  - intros U. apply failsWith_base_iff.
    destruct (currencyRegex_test (trim (baseCurrency s))) eqn:E; [| reflexivity].
    apply regex_shape in E. destruct E as [_ E]. congruence.
Qed.

(** X7: once validation has passed, the upper-casing done by the handler
    changes nothing: the codes put in the URL are the trimmed codes, each
    three code units in A-Z, and the URL is the fixed prefix with the key
    followed by the two codes. *)
Theorem request_codes : forall s,
  passes s ->
  toUpperCase (trim (baseCurrency s)) = requestedBase s
  /\ toUpperCase (trim (destCurrency s)) = requestedDest s
  /\ List.length (requestedBase s) = 3%nat
  /\ forallb isUpperLetter (requestedBase s) = true
  /\ List.length (requestedDest s) = 3%nat
  /\ forallb isUpperLetter (requestedDest s) = true
  /\ requestUrl (toUpperCase (trim (baseCurrency s))) (toUpperCase (trim (destCurrency s)))
     = (lit "https://api.freecurrencyapi.com/v1/latest?apikey=fca_live_oMoG8VygncoNd6rUsq3mMtjDYCzaSzjKtpjf9EXN&base_currency="
        ++ requestedBase s ++ lit "&currencies=" ++ requestedDest s)%list.
Proof.
  intros s H. apply passes_iff in H. destruct H as (Hb & Hd & _).
  unfold requestedBase, requestedDest.
  rewrite (toUpperCase_code _ Hb), (toUpperCase_code _ Hd).
  apply regex_shape in Hb, Hd. destruct Hb as [Lb Ub], Hd as [Ld Ud].
  repeat split; try assumption.
Qed.

(** X8: the URL determines the request: two validated states that give the
    same URL ask for the same base and the same destination code. *)
Theorem url_determines_codes : forall s s',
  passes s ->
  passes s' ->
  urlOf s = urlOf s' ->
  requestedBase s = requestedBase s' /\ requestedDest s = requestedDest s'.
Proof.
  intros s s' H H' E.
  apply passes_iff in H, H'. destruct H as (Hb & Hd & _), H' as (Hb' & Hd' & _).
  unfold urlOf, requestUrl, requestedBase, requestedDest in *.
  destruct (classRepeat3_shape _ Hb) as (a & b & c & Eb & _).
  destruct (classRepeat3_shape _ Hb') as (a' & b' & c' & Eb' & _).
  rewrite Eb, Eb' in *.
  do 3 apply app_inv_head in E.
  injection E as -> -> -> E. now split.
Qed.

(** ** The text fields *)

Lemma upper_not_space : forall c, isUpperLetter c = true -> isWhiteSpace c = false.
Proof.
  intros c H. unfold isUpperLetter in H. apply andb_true_iff in H.
  destruct H as [H1 H2]. apply N.leb_le in H1, H2. unfold isWhiteSpace.
  repeat apply orb_false_intro;
    try (apply N.eqb_neq; lia);
    apply andb_false_iff;
    ((left; apply N.leb_gt; lia) || (right; apply N.leb_gt; lia)).
Qed.

Lemma trim_code : forall a b c,
  isUpperLetter a = true -> isUpperLetter c = true -> trim [a; b; c] = [a; b; c].
Proof.
  intros a b c Ha Hc. unfold trim, trimEnd. simpl.
  rewrite (upper_not_space _ Ha). simpl. now rewrite (upper_not_space _ Hc).
Qed.

Lemma upperUnit_letter : forall c,
  isAsciiLetter c = true -> isUpperLetter (upperUnit c) = true /\ (c <? 128)%N = true.
Proof.
  intros c H. unfold isAsciiLetter, isUpperLetter, upperUnit in *.
  destruct (N.leb_spec 97 c), (N.leb_spec c 122), (N.leb_spec 65 c), (N.leb_spec c 90);
    simpl in *; try discriminate H; split;
    rewrite ?andb_true_iff, ?N.leb_le, ?N.ltb_lt; lia.
Qed.

Lemma typed_code : forall a b c,
  isAsciiLetter a = true -> isAsciiLetter b = true -> isAsciiLetter c = true ->
  currencyRegex_test (trim (toUpperCase [a; b; c])) = true.
Proof.
  intros a b c Ha Hb Hc.
  destruct (upperUnit_letter _ Ha) as [Ua La].
  destruct (upperUnit_letter _ Hb) as [Ub Lb].
  destruct (upperUnit_letter _ Hc) as [Uc Lc].
  rewrite toUpperCase_ascii by (simpl; now rewrite La, Lb, Lc).
  unfold toUpperCaseAscii. simpl map. rewrite (@trim_code _ _ _ Ua Uc).
  unfold currencyRegex_test. simpl. now rewrite Ua, Ub, Uc.
Qed.

(** X9: the change handlers of the two code fields store what was typed in
    upper case and touch nothing else; so three Basic Latin letters typed
    in any case into both fields give a screen on which validation passes as
    soon as the amount is positive. *)
Theorem typed_codes_pass : forall s a b c a' b' c',
  isAsciiLetter a = true -> isAsciiLetter b = true -> isAsciiLetter c = true ->
  isAsciiLetter a' = true -> isAsciiLetter b' = true -> isAsciiLetter c' = true ->
  PrimFloat.ltb 0 (parseFloat (amount s)) = true ->
  passes (onChangeDest toUpperCase [a'; b'; c'] (onChangeBase toUpperCase [a; b; c] s))
  /\ outcome (onChangeDest toUpperCase [a'; b'; c'] (onChangeBase toUpperCase [a; b; c] s))
     = outcome s.
Proof.
  intros s a b c a' b' c' Ha Hb Hc Ha' Hb' Hc' P. split; [| reflexivity].
  apply passes_iff. simpl. repeat split; try assumption; now apply typed_code.
Qed.

(** ** The amount *)

Lemma trimStart_blank : forall ws rest,
  forallb isWhiteSpace ws = true -> trimStart (ws ++ rest)%list = trimStart rest.
Proof.
  induction ws as [| w ws IH]; intros rest H; [reflexivity |].
  simpl in *. apply andb_true_iff in H. destruct H as [Hw Hws].
  rewrite Hw. now apply IH.
Qed.

Lemma parseFloat_leading_space : forall ws a,
  forallb isWhiteSpace ws = true -> parseFloat (ws ++ a)%list = parseFloat a.
Proof.
  intros ws a H. unfold parseFloat. now rewrite trimStart_blank.
Qed.

(** The outcome depends on the amount text only through what it parses to. *)
Lemma outcome_parse : forall fetch s s',
  baseCurrency s = baseCurrency s' ->
  destCurrency s = destCurrency s' ->
  parseFloat (amount s) = parseFloat (amount s') ->
  outcome (attempt fetch s) = outcome (attempt fetch s').
Proof.
  intros fetch [b d a c e m l al] [b' d' a' c' e' m' l' al']; simpl.
  intros <- <- E. run_handler. rewrite E. split_handler; rewrite ?E; reflexivity.
Qed.

(** X10: an amount that is empty or holds only white space parses to NaN
    and is reported as InvalidAmount as soon as both codes match. *)
Theorem blank_amount_rejected : forall s,
  currencyRegex_test (trim (baseCurrency s)) = true ->
  currencyRegex_test (trim (destCurrency s)) = true ->
  forallb isWhiteSpace (amount s) = true ->
  isNaN (parseFloat (amount s)) = true /\ failsWith InvalidAmount s.
Proof.
  intros s Hb Hd W.
  assert (E : parseFloat (amount s) = nan).
  { rewrite <- (app_nil_r (amount s)), parseFloat_leading_space by exact W.
    reflexivity. }
  split; [now rewrite E |].
  apply failsWith_amount_iff. rewrite E. auto.
Qed.

(** X11: the amount is never trimmed, yet white space typed before it is
    skipped by [parseFloat]: it changes neither the verdict of validation
    nor the outcome of the attempt. *)
Theorem amount_leading_space : forall fetch s ws a,
  forallb isWhiteSpace ws = true ->
  (passes (setAmount (ws ++ a)%list s) <-> passes (setAmount a s))
  /\ outcome (attempt fetch (setAmount (ws ++ a)%list s))
     = outcome (attempt fetch (setAmount a s)).
Proof.
  intros fetch s ws a W. split.
  - rewrite !passes_iff. simpl. now rewrite parseFloat_leading_space.
  - apply outcome_parse; try reflexivity. simpl. now apply parseFloat_leading_space.
Qed.

(** ** Bodies of other shapes *)

(** X12: a 2xx response whose JSON body is not null but has no [data]
    object (the body is an array, a string, a number or a boolean, the
    property is missing, or it holds something that is not an object) ends
    with the UnknownCurrencyOrRate message and no result. *)
Theorem body_without_data_object : forall fetch s r body,
  passes s ->
  fetch (urlOf s) = Responded r ->
  ok r = true ->
  json r = Some body ->
  isNullish body = false ->
  (forall props, getProp body (lit "data") <> Obj props) ->
  outcome (attempt fetch s) = (Null, Null, Str (messageOf UnknownCurrencyOrRate)).
Proof.
  intros fetch s r body H F Hok Hj Hn D.
  assert (Hr : toBoolean (optProp (getProp body (lit "data")) (requestedDest s)) = false).
  { unfold optProp. destruct (getProp body (lit "data")) as [| | | | | |props];
      try reflexivity. now elim (D props). }
  rewrite (attempt_no_rate fetch H F Hok Hj Hn Hr). reflexivity.
Qed.

Lemma truthy_entry : forall body k k',
  toBoolean (getProp (getProp body k) k') = true ->
  isNullish body = false
  /\ optProp (getProp body k) k' = getProp (getProp body k) k'.
Proof.
  intros body k k' T. split.
  - destruct body; simpl in *; try discriminate T; reflexivity.
  - unfold optProp. destruct (getProp body k); simpl in *; try discriminate T; reflexivity.
Qed.

(** X13: the rate is stored as the body gives it, whatever its JSON type.
    Take a truthy entry that is not a Number.  When it can be converted to
    a Number (a string such as "0.74", a boolean, an array or an object
    with no [toString] of its own), it is stored unchanged beside a Number
    as converted amount, no error is reported, and rendering the settled
    screen throws, because the result block calls [toFixed] on the rate.
    When it cannot, it is stored, the multiplication throws, the [catch]
    clause sets the network-error message, no converted amount is stored,
    and the settled screen renders the banner alone. *)
Theorem non_number_rate : forall fetch s r body,
  passes s ->
  fetch (urlOf s) = Responded r ->
  ok r = true ->
  json r = Some body ->
  toBoolean (getProp (getProp body (lit "data")) (requestedDest s)) = true ->
  (forall x, getProp (getProp body (lit "data")) (requestedDest s) <> Num x) ->
  exchangeRate (attempt fetch s) = getProp (getProp body (lit "data")) (requestedDest s)
  /\ (primitiveThrows (getProp (getProp body (lit "data")) (requestedDest s)) = false ->
      errorMessage (attempt fetch s) = Str []
      /\ (exists x, convertedAmount (attempt fetch s) = Num x)
      /\ render (attempt fetch s) = Thrown)
  /\ (primitiveThrows (getProp (getProp body (lit "data")) (requestedDest s)) = true ->
      errorMessage (attempt fetch s) = Str (messageOf NetworkError)
      /\ convertedAmount (attempt fetch s) = Null
      /\ exists v, render (attempt fetch s) = Normal v
                   /\ errorBanner v = Some (Str (messageOf NetworkError))
                   /\ resultBlock v = None).
Proof.
  intros fetch s r body H F Hok Hj T NN.
  destruct (truthy_entry _ _ _ T) as [Hn E].
  rewrite <- E in T.
  destruct (toNumber (optProp (getProp body (lit "data")) (requestedDest s)))
    as [n |] eqn:Hx.
  - rewrite (attempt_rate fetch H F Hok Hj Hn T Hx), E.
    split; [reflexivity | split].
    + intros _. split; [reflexivity | split; [eexists; reflexivity |]].
      unfold render. simpl.
      destruct (getProp (getProp body (lit "data")) (requestedDest s))
        as [| | | x | | |]; try reflexivity.
      now elim (NN x).
    + intros P. rewrite E in Hx.
      assert (Q : toNumber (getProp (getProp body (lit "data")) (requestedDest s)) = None)
        by now apply toNumber_None.
      congruence.
  - rewrite (attempt_rate_throws fetch H F Hok Hj Hn T Hx), E.
    split; [reflexivity | split].
    + intros P. rewrite E in Hx. apply toNumber_None in Hx. congruence.
    + intros _. split; [reflexivity | split; [reflexivity |]].
      eexists. split; [reflexivity | split; reflexivity].
Qed.

(** ** The screen after an attempt *)

Lemma settled_cases : forall fetch s,
  (toBoolean (exchangeRate (attempt fetch s)) = true
   /\ (exists x, convertedAmount (attempt fetch s) = Num x)
   /\ errorMessage (attempt fetch s) = Str [])
  \/ (toBoolean (errorMessage (attempt fetch s)) = true
      /\ convertedAmount (attempt fetch s) = Null).
Proof.
  intros fetch [b d a c e m l al]. run_handler. split_handler;
    first [ right; split; (reflexivity || assumption)
          | left; repeat split; [assumption | eexists; reflexivity] ].
Qed.

Lemma settled_idle : forall fetch s,
  isLoading s = false -> isLoading (attempt fetch s) = false.
Proof.
  intros fetch [b d a c e m l al]; simpl. intros ->.
  run_handler. split_handler; reflexivity.
Qed.

(** X14: what is rendered once an attempt started on an idle screen has
    settled.  Rendering throws exactly when a converted amount is stored
    beside a rate that is not a Number (the result block calls [toFixed] on
    it), or the error cell holds something React refuses as a child (a
    provider message that is an object); otherwise the button is enabled
    again, the activity indicator is hidden, and exactly one of the error
    banner and the result block is shown. *)
Theorem render_after_attempt : forall fetch s,
  isLoading s = false ->
  (render (attempt fetch s) = Thrown
   <-> (convertedAmount (attempt fetch s) <> Null
        /\ forall x, exchangeRate (attempt fetch s) <> Num x)
       \/ (toBoolean (errorMessage (attempt fetch s)) = true
           /\ validChild (errorMessage (attempt fetch s)) = false))
  /\ (forall v, render (attempt fetch s) = Normal v ->
      buttonDisabled v = false
      /\ buttonTitle v = lit "Convert"
      /\ activityIndicator v = false
      /\ ((errorBanner v = None /\ resultBlock v <> None)
          \/ (errorBanner v = Some (errorMessage (attempt fetch s))
              /\ resultBlock v = None))).
Proof.
  intros fetch s L. pose proof (settled_idle fetch s L) as L'.
  unfold render. rewrite L'.
  destruct (settled_cases fetch s) as [(R & [x C] & E) | (E & C)].
  - rewrite C, E. cbn [negb andb notNull callToFixed toBoolean].
    destruct (exchangeRate (attempt fetch s)) as [| | k | y | t | l | p];
      try discriminate R; cbn [callToFixed]; split;
      try (split; [intros _; left; split; [discriminate | intros z; discriminate]
                  | intros _; reflexivity]);
      try (intros v V; discriminate V).
    + split; [intros T; discriminate T |].
      intros [[_ N] | [T _]]; [now elim (N y) | discriminate T].
    + intros v V. injection V as <-. cbn. repeat split.
      left. split; [reflexivity | discriminate].
  - rewrite C, E. cbn [andb].
    destruct (validChild (errorMessage (attempt fetch s))) eqn:V; cbn [negb andb notNull].
    + split.
      * split; [intros T; discriminate T |].
        intros [[N _] | [_ T]]; [now elim N | discriminate T].
      * intros v W. injection W as <-. cbn. repeat split. right. now split.
    + split.
      * split; [intros _; right; now split | reflexivity].
      * intros v W. discriminate W.
Qed.

(** ** The messages *)

Lemma lit_inj : forall s t, lit s = lit t -> s = t.
Proof.
  intros s t H. unfold lit in H.
  assert (I : forall l l' : list ascii, map N_of_ascii l = map N_of_ascii l' -> l = l').
  { induction l as [| a l IH]; intros [| a' l'] E; simpl in E; try discriminate E;
      [reflexivity |].
    injection E as Ea El. f_equal; [| now apply IH].
    rewrite <- (ascii_N_embedding a), <- (ascii_N_embedding a'). now rewrite Ea. }
  apply I in H.
  rewrite <- (string_of_list_ascii_of_string s), <- (string_of_list_ascii_of_string t).
  now rewrite H.
Qed.

Lemma decimal_inj : forall n n', decimal n = decimal n' -> n = n'.
Proof.
  intros n n' H. unfold decimal in H. apply lit_inj in H.
  assert (NZ : forall m, N.to_uint m <> Decimal.Nil).
  { intros [| p]; [discriminate | apply DecimalPos.Unsigned.to_uint_nonnil]. }
  apply (f_equal NilZero.uint_of_string) in H.
  rewrite !NilZero.usu in H by apply NZ.
  injection H as H. now apply DecimalN.Unsigned.to_uint_inj.
Qed.

(** X15: the messages tell the failures apart: the generic message names
    its status (two different status codes give two different messages),
    it is never one of the six fixed messages, and no two kinds share a
    fixed message; every one of them is a non-empty string, so the banner
    is shown. *)
Theorem messages_distinct : forall st st' k k',
  (st <> st' -> requestFailedMessage st <> requestFailedMessage st')
  /\ requestFailedMessage st <> messageOf k
  /\ (k <> k' -> messageOf k <> messageOf k')
  /\ toBoolean (Str (requestFailedMessage st)) = true
  /\ toBoolean (Str (messageOf k)) = true.
Proof.
  intros st st' k k'. repeat split.
  - intros N E. apply N. unfold requestFailedMessage in E.
    apply app_inv_head in E. apply app_inv_tail in E. now apply decimal_inj.
  - intros E. destruct k; discriminate E.
  - intros N E. apply N. now apply messageOf_inj.
  - destruct k; reflexivity.
Qed.

(** ** Signs *)

Lemma binary_round_aux_signed : forall sx m e l,
  signed sx (binary_round_aux FloatOps.prec FloatOps.emax sx m e l).
Proof.
  intros sx m e l. unfold binary_round_aux.
  destruct (shr_fexp FloatOps.prec FloatOps.emax m e l) as [mrs' e'].
  destruct (shr_fexp FloatOps.prec FloatOps.emax _ e' loc_Exact) as [mrs'' e''].
  destruct (shr_m mrs''); [reflexivity | | reflexivity].
  destruct (e'' <=? FloatOps.emax - FloatOps.prec)%Z; reflexivity.
Qed.

Lemma binary_round_signed : forall sx m e, signed sx (binary_round FloatOps.prec FloatOps.emax sx m e).
Proof.
  intros sx m e. unfold binary_round.
  destruct (shl_align _ _ _) as [mz ez]. apply binary_round_aux_signed.
Qed.

Lemma SFdiv_signed : forall sx p q,
  signed sx (SFdiv FloatOps.prec FloatOps.emax (S754_finite sx p 0) (S754_finite false q 0)).
Proof.
  intros sx p q. unfold SFdiv.
  destruct (SFdiv_core_binary _ _ _ _ _ _) as [[mz ez] lz].
  replace (xorb sx false) with sx by (destruct sx; reflexivity).
  apply binary_round_aux_signed.
Qed.

Lemma not_positive : forall x, signed true (Prim2SF x) -> PrimFloat.ltb 0 x = false.
Proof.
  intros x S. rewrite FloatAxioms.ltb_spec. change (Prim2SF 0) with (S754_zero false).
  destruct (Prim2SF x) as [s | s | | s m e]; simpl in S; try subst s; reflexivity.
Qed.

Lemma SF2Prim_signed_true : forall x, signed true x -> signed true (Prim2SF (SF2Prim x)).
Proof.
  intros [s | s | | s m e] S; simpl in S; try subst s; try reflexivity.
  unfold SF2Prim. rewrite opp_spec, Z_ldexp_spec, of_uint63_spec.
  assert (P : signed false
                (binary_normalize FloatOps.prec FloatOps.emax
                   (Uint63.to_Z (Uint63.of_Z (Z.pos m))) 0 false)).
  { pose proof (Uint63.to_Z_bounded (Uint63.of_Z (Z.pos m))) as B.
    destruct (Uint63.to_Z (Uint63.of_Z (Z.pos m))) as [| p | p]; simpl;
      [reflexivity | | lia].
    apply binary_round_signed. }
  destruct (binary_normalize FloatOps.prec FloatOps.emax
              (Uint63.to_Z (Uint63.of_Z (Z.pos m))) 0 false) as [s | s | | s m' e'];
    simpl in P; try subst s; try reflexivity.
  unfold SFldexp.
  pose proof (binary_round_signed false m' (e' + e)) as Q.
  destruct (binary_round FloatOps.prec FloatOps.emax false m' (e' + e))
    as [s | s | | s m'' e'']; simpl in Q; try subst s; reflexivity.
Qed.

Lemma numberOfDecimal_negative : forall m e,
  PrimFloat.ltb 0 (numberOfDecimal true m e) = false.
Proof.
  intros m e. apply not_positive. unfold numberOfDecimal, numberOfRatio.
  destruct m as [| p]; [reflexivity |].
  destruct e; apply SF2Prim_signed_true; apply SFdiv_signed.
Qed.

Lemma readUnsigned_negative : forall rest,
  PrimFloat.ltb 0 (readUnsigned true rest) = false.
Proof.
  intros rest. unfold readUnsigned.
  destruct (startsWith (lit "Infinity") rest); [reflexivity |].
  destruct (readDigits 0 0 rest) as [[ip ilen] r1].
  destruct r1 as [| c r1'].
  - destruct ilen; [reflexivity | apply numberOfDecimal_negative].
  - destruct (c =? 46)%N.
    + destruct (readDigits ip 0 r1') as [[m flen] r2].
      destruct ilen, flen; try reflexivity; apply numberOfDecimal_negative.
    + destruct ilen; [reflexivity | apply numberOfDecimal_negative].
Qed.

(** X16: an amount written with a minus sign never passes validation,
    whatever follows the sign (digits, a fraction, an exponent, Infinity or
    nothing numeric at all) and whatever white space precedes it: once both
    codes match it is reported as InvalidAmount. *)
Theorem negative_amount_rejected : forall s ws rest,
  currencyRegex_test (trim (baseCurrency s)) = true ->
  currencyRegex_test (trim (destCurrency s)) = true ->
  forallb isWhiteSpace ws = true ->
  amount s = (ws ++ 45%N :: rest)%list ->
  failsWith InvalidAmount s /\ ~ passes s.
Proof.
  intros s ws rest Hb Hd W A.
  assert (E : PrimFloat.ltb 0 (parseFloat (amount s)) = false).
  { rewrite A, (parseFloat_leading_space _ _ W).
    change (parseFloat (45%N :: rest)) with (readUnsigned true rest).
    apply readUnsigned_negative. }
  split.
  - apply failsWith_amount_iff. auto.
  - intros V. apply passes_iff in V. destruct V as (_ & _ & V). congruence.
Qed.

Lemma negative_truthy : forall x, PrimFloat.ltb x 0 = true -> toBoolean (Num x) = true.
Proof.
  intros x H. unfold toBoolean, PrimFloat.is_zero, PrimFloat.is_nan.
  rewrite FloatAxioms.ltb_spec in H. rewrite !FloatAxioms.eqb_spec.
  change (Prim2SF 0) with (S754_zero false) in *.
  unfold SFeqb, SFltb in *.
  destruct (Prim2SF x) as [sg | sg | | sg m e]; try discriminate H.
  - destruct sg; [reflexivity | discriminate H].
  - rewrite SFcompare_refl_finite. destruct sg; [reflexivity | discriminate H].
Qed.

(** X17: the rate is only tested for truthiness, never for its sign: a
    negative rate in the body is accepted, stored, and multiplied into the
    converted amount like any other, and no error is reported. *)
Theorem negative_rate_accepted : forall fetch s r body rate,
  passes s ->
  fetch (urlOf s) = Responded r ->
  ok r = true ->
  json r = Some body ->
  getProp (getProp body (lit "data")) (requestedDest s) = Num rate ->
  PrimFloat.ltb rate 0 = true ->
  outcome (attempt fetch s)
  = (Num rate, Num (parseFloat (amount s) * rate)%float, Str []).
Proof.
  intros fetch s r body rate H F Hok Hj Hr Neg.
  rewrite (attempt_number_rate fetch H F Hok Hj Hr (negative_truthy Neg)).
  reflexivity.
Qed.

(** ** Text after the number *)

Lemma inert_facts : forall c,
  inert c = true ->
  isDigit c = false /\ (c =? 43)%N = false /\ (c =? 45)%N = false
  /\ (c =? 46)%N = false /\ (c =? 69)%N = false /\ (c =? 101)%N = false
  /\ existsb (unit_eqb c) (lit "Infinity") = false.
Proof.
  intros c H. unfold inert in H. apply negb_true_iff in H.
  rewrite !orb_false_iff in H. tauto.
Qed.

Lemma startsWith_app : forall p t junk,
  match junk with [] => True | c :: _ => existsb (unit_eqb c) p = false end ->
  startsWith p (t ++ junk)%list = startsWith p t.
Proof.
  induction p as [| a p IH]; intros t junk J; [destruct t; reflexivity |].
  destruct t as [| b t]; cbn [app startsWith].
  - destruct junk as [| c junk]; [reflexivity |]. cbn [startsWith].
    cbn [existsb] in J. apply orb_false_iff in J. destruct J as [J _].
    unfold unit_eqb in *. rewrite N.eqb_sym, J. reflexivity.
  - rewrite IH; [reflexivity |].
    destruct junk as [| c junk]; [exact I |].
    cbn [existsb] in J. apply orb_false_iff in J. tauto.
Qed.

Lemma readDigits_app_any : forall t junk acc len,
  match junk with [] => True | c :: _ => isDigit c = false end ->
  readDigits acc len (t ++ junk)%list
  = (fst (fst (readDigits acc len t)), snd (fst (readDigits acc len t)),
     (snd (readDigits acc len t) ++ junk)%list).
Proof.
  induction t as [| b t IH]; intros junk acc len J; cbn [app readDigits].
  - destruct junk as [| c junk]; [reflexivity |]. cbn [readDigits].
    now rewrite J.
  - destruct (isDigit b); [now apply IH | reflexivity].
Qed.

Lemma endsLiteral_digit : forall junk,
  endsLiteral junk = true ->
  match junk with [] => True | c :: _ => isDigit c = false end.
Proof.
  intros [| c junk] J; [exact I |]. now apply inert_facts in J.
Qed.

Lemma readExponent_app : forall u junk,
  endsLiteral junk = true -> readExponent (u ++ junk)%list = readExponent u.
Proof.
  intros u junk J. pose proof (endsLiteral_digit junk J) as D.
  destruct u as [| c u]; cbn [app].
  - destruct junk as [| j junk]; [reflexivity |].
    apply inert_facts in J. destruct J as (_ & _ & _ & _ & E1 & E2 & _).
    unfold readExponent. now rewrite E1, E2.
  - unfold readExponent. destruct ((c =? 101) || (c =? 69))%N; [| reflexivity].
    destruct u as [| d t]; cbn [app].
    + destruct junk as [| j junk]; [reflexivity |].
      apply inert_facts in J. destruct J as (Dj & P & M & _).
      rewrite P, M. cbn [readDigits]. now rewrite Dj.
    + destruct (d =? 43)%N; [| destruct (d =? 45)%N].
      * rewrite (readDigits_app_any t junk 0 0 D).
        destruct (readDigits 0 0 t) as [[v len] rest]. reflexivity.
      * rewrite (readDigits_app_any t junk 0 0 D).
        destruct (readDigits 0 0 t) as [[v len] rest]. reflexivity.
      * change (d :: t ++ junk)%list with ((d :: t) ++ junk)%list.
        rewrite (readDigits_app_any (d :: t) junk 0 0 D).
        destruct (readDigits 0 0 (d :: t)) as [[v len] rest]. reflexivity.
Qed.

Lemma readUnsigned_app : forall neg t junk,
  endsLiteral junk = true -> readUnsigned neg (t ++ junk)%list = readUnsigned neg t.
Proof.
  intros neg t junk J. pose proof (endsLiteral_digit junk J) as D.
  unfold readUnsigned. rewrite startsWith_app.
  2:{ destruct junk as [| c junk]; [exact I |]. now apply inert_facts in J. }
  destruct (startsWith (lit "Infinity") t); [reflexivity |].
  rewrite (readDigits_app_any t junk 0 0 D).
  destruct (readDigits 0 0 t) as [[ip ilen] r1]. cbn [fst snd].
  destruct r1 as [| c r1]; cbn [app].
  - destruct junk as [| j junk]; [reflexivity |].
    pose proof (readExponent_app [] (j :: junk) J) as X. cbn [app] in X.
    change (readExponent []) with 0%Z in X.
    apply inert_facts in J. destruct J as (_ & _ & _ & Dot & _).
    rewrite Dot, X. reflexivity.
  - destruct (c =? 46)%N.
    + rewrite (readDigits_app_any r1 junk ip 0 D).
      destruct (readDigits ip 0 r1) as [[m flen] r2]. cbn [fst snd].
      now rewrite (readExponent_app r2 junk J).
    + change (c :: r1 ++ junk)%list with ((c :: r1) ++ junk)%list.
      now rewrite (readExponent_app (c :: r1) junk J).
Qed.

Lemma trimStart_app : forall s junk,
  forallb isWhiteSpace s = false ->
  trimStart (s ++ junk)%list = (trimStart s ++ junk)%list /\ trimStart s <> [].
Proof.
  induction s as [| c s IH]; intros junk B; [discriminate B |].
  cbn [app trimStart forallb] in *.
  destruct (isWhiteSpace c); [now apply IH |].
  split; [reflexivity | discriminate].
Qed.

Lemma parseFloat_app : forall a junk,
  forallb isWhiteSpace a = false ->
  endsLiteral junk = true ->
  parseFloat (a ++ junk)%list = parseFloat a.
Proof.
  intros a junk B J. unfold parseFloat.
  destruct (trimStart_app a junk B) as [E N]. rewrite E.
  destruct (trimStart a) as [| c s']; [now elim N |]. cbn [app].
  destruct (c =? 43)%N; [now apply readUnsigned_app |].
  destruct (c =? 45)%N; [now apply readUnsigned_app |].
  change (c :: s' ++ junk)%list with ((c :: s') ++ junk)%list.
  now apply readUnsigned_app.
Qed.

(** X18: whatever the amount is, text typed after it that starts with a
    code unit no numeric literal can absorb (a space, a currency symbol, a
    letter other than e, E and those of Infinity, ...) is ignored: the
    amount parses to the same number, validation gives the same verdict and
    the attempt the same outcome. *)
Theorem amount_trailing_text : forall fetch s a junk,
  forallb isWhiteSpace a = false ->
  endsLiteral junk = true ->
  parseFloat (a ++ junk)%list = parseFloat a
  /\ (passes (setAmount (a ++ junk)%list s) <-> passes (setAmount a s))
  /\ outcome (attempt fetch (setAmount (a ++ junk)%list s))
     = outcome (attempt fetch (setAmount a s)).
Proof.
  intros fetch s a junk B J.
  pose proof (parseFloat_app a junk B J) as E. split; [exact E | split].
  - rewrite !passes_iff. simpl. now rewrite E.
  - apply outcome_parse; try reflexivity. exact E.
Qed.

(** ** White space around the codes *)

Lemma trim_padded_code : forall ws1 ws2 a b c,
  forallb isWhiteSpace ws1 = true ->
  forallb isWhiteSpace ws2 = true ->
  isUpperLetter a = true -> isUpperLetter c = true ->
  trim (ws1 ++ [a; b; c] ++ ws2)%list = [a; b; c].
Proof.
  intros ws1 ws2 a b c W1 W2 Ha Hc. unfold trim, trimEnd.
  rewrite (trimStart_blank _ _ W1). cbn [app trimStart].
  rewrite (upper_not_space _ Ha).
  change (a :: b :: c :: ws2) with ([a; b; c] ++ ws2)%list.
  rewrite rev_app_distr, (trimStart_blank _ _ (forallb_rev _ _ W2)).
  cbn [rev app trimStart]. now rewrite (upper_not_space _ Hc).
Qed.

(** X19: white space stored around a code is ignored.  A base and a
    destination code of three letters in A-Z, each padded on either side
    with any white space, pass validation as soon as the amount is
    positive, and the request is made for the bare codes. *)
Theorem padded_codes_pass : forall s ws1 ws2 ws3 ws4 a b c a' b' c',
  forallb isWhiteSpace ws1 = true -> forallb isWhiteSpace ws2 = true ->
  forallb isWhiteSpace ws3 = true -> forallb isWhiteSpace ws4 = true ->
  forallb isUpperLetter [a; b; c] = true ->
  forallb isUpperLetter [a'; b'; c'] = true ->
  baseCurrency s = (ws1 ++ [a; b; c] ++ ws2)%list ->
  destCurrency s = (ws3 ++ [a'; b'; c'] ++ ws4)%list ->
  PrimFloat.ltb 0 (parseFloat (amount s)) = true ->
  passes s /\ urlOf s = requestUrl [a; b; c] [a'; b'; c'].
Proof.
  intros s ws1 ws2 ws3 ws4 a b c a' b' c' W1 W2 W3 W4 U U' Eb Ed P.
  cbn [forallb] in U, U'. rewrite !andb_true_iff in U, U'.
  destruct U as (Ha & Hb & Hc & _), U' as (Ha' & Hb' & Hc' & _).
  assert (Tb : trim (baseCurrency s) = [a; b; c])
    by (rewrite Eb; now apply trim_padded_code).
  assert (Td : trim (destCurrency s) = [a'; b'; c'])
    by (rewrite Ed; now apply trim_padded_code).
  split.
  - apply passes_iff. rewrite Tb, Td. unfold currencyRegex_test. cbn [classRepeat].
    now rewrite Ha, Hb, Hc, Ha', Hb', Hc'.
  - unfold urlOf, requestedBase, requestedDest. now rewrite Tb, Td.
Qed.

(** ** What can reach the banner *)

(** X20: after any attempt the error cell holds a string, except on one
    path: a response that is neither 2xx nor 401 whose JSON body has a
    truthy [message]; that message is then stored as it is, whatever its
    JSON type. *)
Theorem error_cell_content : forall fetch s,
  (exists t, errorMessage (attempt fetch s) = Str t)
  \/ (passes s
      /\ exists r body,
           fetch (urlOf s) = Responded r
           /\ ok r = false /\ status r <> 401%N
           /\ json r = Some body
           /\ toBoolean (optProp body (lit "message")) = true
           /\ errorMessage (attempt fetch s) = optProp body (lit "message")).
Proof.
  intros fetch s.
  destruct (validateInput_cases s) as [H | [H | [H | H]]];
    try (left; rewrite (attempt_invalid fetch H); eexists; reflexivity).
  destruct (fetch (urlOf s)) as [| r] eqn:F.
  { left. rewrite (attempt_rejected fetch H F). eexists; reflexivity. }
  destruct (ok r) eqn:Hok.
  - left. destruct (json r) as [v |] eqn:Hj.
    + destruct (isNullish v) eqn:Hn.
      * assert (U : match json r with Some v => isNullish v = true | None => True end)
          by now rewrite Hj.
        rewrite (attempt_unreadable fetch H F Hok U). eexists; reflexivity.
      * destruct (toBoolean (optProp (getProp v (lit "data")) (requestedDest s))) eqn:Hr.
        -- destruct (toNumber (optProp (getProp v (lit "data")) (requestedDest s)))
             as [n |] eqn:Hx.
           ++ rewrite (attempt_rate fetch H F Hok Hj Hn Hr Hx). eexists; reflexivity.
           ++ rewrite (attempt_rate_throws fetch H F Hok Hj Hn Hr Hx).
              eexists; reflexivity.
        -- rewrite (attempt_no_rate fetch H F Hok Hj Hn Hr). eexists; reflexivity.
    + assert (U : match json r with Some v => isNullish v = true | None => True end)
        by now rewrite Hj.
      rewrite (attempt_unreadable fetch H F Hok U). eexists; reflexivity.
  - destruct (N.eq_dec (status r) 401) as [Hst | Hst].
    + left. rewrite (attempt_unauthorized fetch H F Hok Hst). eexists; reflexivity.
    + rewrite (attempt_http_error fetch H F Hok Hst).
      destruct (json r) as [body |] eqn:Hj.
      * destruct (toBoolean (optProp body (lit "message"))) eqn:Hm.
        -- right. split; [exact H |]. exists r, body.
           repeat split; try assumption; try reflexivity.
           cbn [errorMessage setIsLoading setErrorMessage]. unfold orElse. now rewrite Hm.
        -- left. cbn [errorMessage setIsLoading setErrorMessage]. unfold orElse.
           rewrite Hm. eexists; reflexivity.
      * left. eexists; reflexivity.
Qed.

(** ** Zero *)

Lemma readDigits_zeros : forall ds len,
  forallb (fun c => (c =? 48)%N) ds = true ->
  readDigits 0 len ds = (0%N, (len + List.length ds)%nat, []).
Proof.
  induction ds as [| c ds IH]; intros len Z; cbn [readDigits forallb List.length] in *.
  - now rewrite Nat.add_0_r.
  - apply andb_true_iff in Z. destruct Z as [Zc Zds]. apply N.eqb_eq in Zc. subst c.
    change (isDigit 48) with true. cbv iota.
    change (10 * 0 + digitValue 48)%N with 0%N.
    rewrite (IH (S len) Zds). now rewrite Nat.add_succ_r.
Qed.

Lemma zeros_digits : forall ds,
  forallb (fun c => (c =? 48)%N) ds = true -> forallb isDigit ds = true.
Proof.
  intros ds Z. rewrite forallb_forall in *. intros c C.
  specialize (Z c C). apply N.eqb_eq in Z. now subst c.
Qed.

(** X21: an amount written with zeros only, whatever text that cannot
    continue the number follows them, parses to 0 and never passes
    validation: once both codes match it is reported as InvalidAmount. *)
Theorem zero_amount_rejected : forall s ds junk,
  currencyRegex_test (trim (baseCurrency s)) = true ->
  currencyRegex_test (trim (destCurrency s)) = true ->
  ds <> [] ->
  forallb (fun c => (c =? 48)%N) ds = true ->
  endsNumber junk = true ->
  amount s = (ds ++ junk)%list ->
  parseFloat (amount s) = 0%float /\ failsWith InvalidAmount s.
Proof.
  intros s ds junk Hb Hd N Z J A.
  assert (E : parseFloat (amount s) = 0%float).
  { rewrite A, (parseFloat_digits_app junk N (zeros_digits _ Z) J).
    destruct ds as [| c ds]; [now elim N |].
    pose proof Z as Z'. cbn [forallb] in Z'. apply andb_true_iff in Z'.
    destruct Z' as [Zc _]. apply N.eqb_eq in Zc. subst c.
    unfold parseFloat. cbn [trimStart].
    change (isWhiteSpace 48) with false. cbv iota.
    change (48 =? 43)%N with false. change (48 =? 45)%N with false. cbv iota.
    unfold readUnsigned.
    change (startsWith (lit "Infinity") (48%N :: ds)) with false. cbv iota.
    rewrite (readDigits_zeros (48%N :: ds) 0 Z). reflexivity. }
  split; [exact E |]. apply failsWith_amount_iff. rewrite E. auto.
Qed.

(** ** What of the body matters *)

(** X22: of a 2xx body only the entry for the requested destination
    currency matters: two responses whose parsed bodies are not null and
    give the same value for that entry leave the same outcome, whatever
    other rates or fields they carry and whatever their 2xx status. *)
Theorem only_requested_entry_matters : forall fetch fetch' s r r' body body',
  passes s ->
  fetch (urlOf s) = Responded r -> fetch' (urlOf s) = Responded r' ->
  ok r = true -> ok r' = true ->
  json r = Some body -> json r' = Some body' ->
  isNullish body = false -> isNullish body' = false ->
  optProp (getProp body (lit "data")) (requestedDest s)
  = optProp (getProp body' (lit "data")) (requestedDest s) ->
  outcome (attempt fetch s) = outcome (attempt fetch' s).
Proof.
  intros fetch fetch' s r r' body body' H F F' Hok Hok' Hj Hj' Hn Hn' E.
  destruct (toBoolean (optProp (getProp body (lit "data")) (requestedDest s))) eqn:T.
  - pose proof T as T'. rewrite E in T'.
    destruct (toNumber (optProp (getProp body (lit "data")) (requestedDest s)))
      as [n |] eqn:Hx; pose proof Hx as Hx'; rewrite E in Hx'.
    + rewrite (attempt_rate fetch H F Hok Hj Hn T Hx),
              (attempt_rate fetch' H F' Hok' Hj' Hn' T' Hx'), E. reflexivity.
    + rewrite (attempt_rate_throws fetch H F Hok Hj Hn T Hx),
              (attempt_rate_throws fetch' H F' Hok' Hj' Hn' T' Hx'), E. reflexivity.
  - pose proof T as T'. rewrite E in T'.
    rewrite (attempt_no_rate fetch H F Hok Hj Hn T),
            (attempt_no_rate fetch' H F' Hok' Hj' Hn' T'). reflexivity.
Qed.

(** ** Pressing the button again *)

Lemma screen_ext : forall s s',
  baseCurrency s = baseCurrency s' ->
  destCurrency s = destCurrency s' ->
  amount s = amount s' ->
  outcome s = outcome s' ->
  isLoading s = isLoading s' ->
  alerts s = alerts s' ->
  s = s'.
Proof.
  intros [b d a c e m l al] [b' d' a' c' e' m' l' al']; unfold outcome; simpl.
  intros -> -> -> O -> ->. injection O as -> -> ->. reflexivity.
Qed.

Lemma settled_passes : forall fetch s,
  passes s -> isLoading (attempt fetch s) = false.
Proof.
  intros fetch [b d a c e m l al] H. apply passes_iff in H. simpl in H.
  destruct H as (Hb & Hd & Ha).
  run_handler. rewrite Hb, Hd, amount_test, Ha. cbn [negb].
  split_handler; reflexivity.
Qed.

Lemma passes_inputs : forall s s',
  baseCurrency s = baseCurrency s' ->
  destCurrency s = destCurrency s' ->
  amount s = amount s' ->
  passes s -> passes s'.
Proof.
  intros s s' Eb Ed Ea H. apply passes_iff. apply passes_iff in H.
  now rewrite <- Eb, <- Ed, <- Ea.
Qed.

(** The alerts an attempt appends depend on the inputs and the provider
    only. *)
Lemma alerts_appended : forall fetch s s',
  baseCurrency s = baseCurrency s' ->
  destCurrency s = destCurrency s' ->
  amount s = amount s' ->
  exists tail,
    alerts (attempt fetch s) = (alerts s ++ tail)%list
    /\ alerts (attempt fetch s') = (alerts s' ++ tail)%list.
Proof.
  intros fetch [b d a c e m l al] [b' d' a' c' e' m' l' al']; simpl.
  intros <- <- <-. run_handler. split_handler;
    first [ exists []; rewrite !app_nil_r; split; reflexivity
          | eexists; split; reflexivity ].
Qed.

(** X23: pressing the button again on the screen an attempt left, with
    the provider answering the same, changes nothing but the alerts: the
    inputs, the outcome and the busy flag are the same after the second
    attempt as after the first, and when the first attempt raised no alert
    the two screens are equal. *)
Theorem second_attempt : forall fetch s,
  outcome (attempt fetch (attempt fetch s)) = outcome (attempt fetch s)
  /\ isLoading (attempt fetch (attempt fetch s)) = isLoading (attempt fetch s)
  /\ (alerts (attempt fetch s) = alerts s ->
      attempt fetch (attempt fetch s) = attempt fetch s).
Proof.
  intros fetch s.
  destruct (attempt_inputs fetch s) as (Eb & Ed & Ea).
  destruct (attempt_inputs fetch (attempt fetch s)) as (Eb' & Ed' & Ea').
  assert (O : outcome (attempt fetch (attempt fetch s)) = outcome (attempt fetch s))
    by now apply outcome_inputs.
  assert (L : isLoading (attempt fetch (attempt fetch s)) = isLoading (attempt fetch s)).
  { destruct (validateInput_cases (attempt fetch s)) as [H | [H | [H | H]]];
      try (rewrite (attempt_invalid fetch H); reflexivity).
    rewrite (settled_passes fetch H).
    symmetry. apply settled_passes. now apply (passes_inputs _ Eb Ed Ea). }
  split; [exact O | split; [exact L |]].
  intros A. apply screen_ext; try assumption.
  destruct (alerts_appended fetch s (attempt fetch s)) as (tail & T & T'); auto.
  rewrite T'. rewrite T in A.
  rewrite <- (app_nil_r (alerts s)) in A at 2. apply app_inv_head in A.
  subst tail. apply app_nil_r.
Qed.

End Handler.

(** * Concrete runs *)

Lemma toUpperCaseAscii_ascii :
  forall s, isAscii s = true -> toUpperCaseAscii s = toUpperCaseAscii s.
Proof. reflexivity. Qed.

(** Codes typed in lower case, with and without white space around them. *)
Lemma validate_trims_codes_witness :
  ~ failsWith InvalidBaseCurrency
      (onChangeBase toUpperCaseAscii (lit "cad") (screen "" "USD" "1"))
  /\ ~ failsWith InvalidDestCurrency
        (onChangeDest toUpperCaseAscii (lit " usd ") (screen "CAD" "" "1"))
  /\ ~ failsWith InvalidBaseCurrency (screen "CAD" "USD" "1")
  /\ ~ failsWith InvalidBaseCurrency
        (onChangeBase toUpperCaseAscii (lit "eur ") (screen "" "USD" "1")).
Proof.
  split; [| split; [| split]].
  - apply (@validate_trims_codes toUpperCaseAscii toUpperCaseAscii_ascii
             (screen "" "USD" "1")); reflexivity.
  - apply (@validate_trims_codes toUpperCaseAscii toUpperCaseAscii_ascii
             (screen "CAD" "" "1")); reflexivity.
  - destruct (@validate_trims_codes toUpperCaseAscii toUpperCaseAscii_ascii
                (screen "CAD" "USD" "1")) as (_ & _ & S & _).
    apply (S (lit "cad")); reflexivity.
  - destruct (@validate_trims_codes toUpperCaseAscii toUpperCaseAscii_ascii
                (screen "" "USD" "1")) as (_ & _ & _ & _ & G & _).
    apply (G trim_toUpperCaseAscii (lit "eur ")). reflexivity.
Defined.

Lemma validation_order_witness :
  failsWith InvalidBaseCurrency (screen "c4d" "dollars" "-1")
  /\ failsWith InvalidDestCurrency (screen "CAD" "dollars" "-1").
Proof.
  split.
  - apply (@validation_order toUpperCaseAscii toUpperCaseAscii_ascii (screen "c4d" "dollars" "-1")).
    reflexivity.
  - apply (@validation_order toUpperCaseAscii toUpperCaseAscii_ascii (screen "CAD" "dollars" "-1"));
      reflexivity.
Defined.

(** An amount that parses to +Infinity passes validation. *)
Lemma validate_accepts_Infinity :
  passes (screen "CAD" "USD" "Infinity")
  /\ parseFloat (lit "Infinity") = infinity
  /\ PrimFloat.is_finite (parseFloat (lit "Infinity")) = false.
Proof. repeat split; reflexivity. Qed.

Lemma validate_amount_witness :
  failsWith InvalidAmount (screen "CAD" "USD" "-3")
  /\ passes (screen "CAD" "USD" "2.50")
  /\ passes (screen "CAD" "USD" "1e999").
Proof.
  split; [| split].
  - destruct (validate_amount (screen "CAD" "USD" "-3") eq_refl eq_refl) as (H & _ & _).
    apply H. right. reflexivity.
  - destruct (validate_amount (screen "CAD" "USD" "2.50") eq_refl eq_refl) as (_ & H & _).
    apply H. reflexivity.
  - destruct (validate_amount (screen "CAD" "USD" "1e999") eq_refl eq_refl) as (_ & _ & H).
    apply H. reflexivity.
Defined.

(** The example of the specification: CAD to USD, amount 10, rate 0.5. *)
Lemma convert_success_witness :
  outcome (attempt toUpperCaseAscii noCoercion
             (answers 200 (Some (rates "USD" 0.5%float)))
             (screen "CAD" "USD" "10"))
  = (Num 0.5%float, Num 5%float, Str []).
Proof.
  exact (@convert_success toUpperCaseAscii toUpperCaseAscii_ascii noCoercion
           (answers 200 (Some (rates "USD" 0.5%float)))
           (screen "CAD" "USD" "10")
           (mkResponse 200 (Some (rates "USD" 0.5%float)))
           (rates "USD" 0.5%float) 0.5%float
           eq_refl eq_refl eq_refl eq_refl eq_refl eq_refl).
Defined.

(** A 2xx response whose body is not JSON, or is the JSON value [null]:
    there is no entry for the destination currency, and the attempt ends
    with the NetworkError message, not with UnknownCurrencyOrRate. *)
Lemma success_status_unreadable_body :
  ok (mkResponse 200 None) = true
  /\ errorMessage (attempt toUpperCaseAscii noCoercion (answers 200 None)
                     (screen "CAD" "USD" "1"))
     = Str (messageOf NetworkError)
  /\ errorMessage (attempt toUpperCaseAscii noCoercion (answers 200 (Some Null))
                     (screen "CAD" "USD" "1"))
     = Str (messageOf NetworkError)
  /\ messageOf NetworkError <> messageOf UnknownCurrencyOrRate.
Proof. repeat split; try reflexivity. intros E. discriminate E. Qed.

Lemma unknown_rate_iff_witness :
  outcome (attempt toUpperCaseAscii noCoercion
             (answers 200 (Some (rates "USD" 0%float)))
             (screen "CAD" "USD" "10"))
  = (Null, Null, Str (messageOf UnknownCurrencyOrRate))
  /\ outcome (attempt toUpperCaseAscii noCoercion
                (answers 200 (Some (rates "EUR" 0.9%float)))
                (screen "CAD" "USD" "10"))
     = (Null, Null, Str (messageOf UnknownCurrencyOrRate)).
Proof.
  split.
  - destruct (@unknown_rate_iff toUpperCaseAscii toUpperCaseAscii_ascii noCoercion
                (answers 200 (Some (rates "USD" 0%float)))
                (screen "CAD" "USD" "10")
                (mkResponse 200 (Some (rates "USD" 0%float)))
                (rates "USD" 0%float)
                eq_refl eq_refl eq_refl eq_refl eq_refl) as (_ & _ & Z).
    apply Z. reflexivity.
  - destruct (@unknown_rate_iff toUpperCaseAscii toUpperCaseAscii_ascii noCoercion
                (answers 200 (Some (rates "EUR" 0.9%float)))
                (screen "CAD" "USD" "10")
                (mkResponse 200 (Some (rates "EUR" 0.9%float)))
                (rates "EUR" 0.9%float)
                eq_refl eq_refl eq_refl eq_refl eq_refl) as (_ & A & _).
    apply A. reflexivity.
Defined.

(** A 500 response whose body has a [message] field holding the empty
    string: the body contains a message, and the generic one is shown. *)
Lemma empty_provider_message_replaced :
  lookup (lit "message") [(lit "message", Str [])] = Some (Str [])
  /\ errorMessage (attempt toUpperCaseAscii noCoercion
                     (answers 500 (Some (Obj [(lit "message", Str [])])))
                     (screen "CAD" "USD" "1"))
     = Str (lit "Request failed with status 500.").
Proof. split; reflexivity. Qed.

Lemma http_error_mapping_witness :
  outcome (attempt toUpperCaseAscii noCoercion
             (answers 401 (Some (Obj [(lit "message", Str (lit "Unauthenticated"))])))
             (screen "CAD" "USD" "1"))
  = (Null, Null, Str (messageOf InvalidApiKey))
  /\ outcome (attempt toUpperCaseAscii noCoercion
                (answers 422 (Some (Obj [(lit "message", Str (lit "Validation error"))])))
                (screen "CAD" "USD" "1"))
     = (Null, Null, Str (lit "Validation error"))
  /\ outcome (attempt toUpperCaseAscii noCoercion
                (answers 503 None) (screen "CAD" "USD" "1"))
     = (Null, Null, Str (lit "Request failed with status 503.")).
Proof.
  split; [| split].
  - destruct (@http_error_mapping toUpperCaseAscii toUpperCaseAscii_ascii noCoercion
                (answers 401 (Some (Obj [(lit "message", Str (lit "Unauthenticated"))])))
                (screen "CAD" "USD" "1")
                (mkResponse 401 (Some (Obj [(lit "message", Str (lit "Unauthenticated"))])))
                eq_refl eq_refl eq_refl) as (U & _).
    apply U. reflexivity.
  - destruct (@http_error_mapping toUpperCaseAscii toUpperCaseAscii_ascii noCoercion
                (answers 422 (Some (Obj [(lit "message", Str (lit "Validation error"))])))
                (screen "CAD" "USD" "1")
                (mkResponse 422 (Some (Obj [(lit "message", Str (lit "Validation error"))])))
                eq_refl eq_refl eq_refl) as (_ & P & _).
    apply (P ltac:(discriminate) _ eq_refl). reflexivity.
  - destruct (@http_error_mapping toUpperCaseAscii toUpperCaseAscii_ascii noCoercion
                (answers 503 None) (screen "CAD" "USD" "1") (mkResponse 503 None)
                eq_refl eq_refl eq_refl) as (_ & _ & _ & G).
    apply G; [discriminate | reflexivity].
Defined.



Lemma transport_failure_witness :
  outcome (attempt toUpperCaseAscii noCoercion (stub Rejected) (screen "CAD" "USD" "1"))
  = (Null, Null, Str (messageOf NetworkError)).
Proof.
  exact (@transport_failure toUpperCaseAscii toUpperCaseAscii_ascii noCoercion
           (stub Rejected) (screen "CAD" "USD" "1") eq_refl eq_refl).
Defined.

(** The same inputs on a fresh screen and on one still holding the result
    of an earlier conversion, an error, a raised busy flag and an alert. *)
Lemma convert_deterministic_witness :
  outcome (attempt toUpperCaseAscii noCoercion
             (answers 200 (Some (rates "USD" 0.5%float)))
             (screen "CAD" "USD" "10"))
  = outcome (attempt toUpperCaseAscii noCoercion
               (answers 200 (Some (rates "USD" 0.5%float)))
               (mkScreen (lit "CAD") (lit "USD") (lit "10")
                         (Num 7%float) (Num 3%float) (Str (lit "stale")) true
                         [(lit "Network Error", lit "earlier")]))
  /\ outcome (attempt toUpperCaseAscii noCoercion
                (answers 200 (Some (rates "USD" 0.5%float)))
                (attempt toUpperCaseAscii noCoercion
                   (answers 200 (Some (rates "USD" 0.5%float)))
                   (screen "CAD" "USD" "10")))
     = outcome (attempt toUpperCaseAscii noCoercion
                  (answers 200 (Some (rates "USD" 0.5%float)))
                  (screen "CAD" "USD" "10")).
Proof.
  exact (convert_deterministic toUpperCaseAscii noCoercion
           (answers 200 (Some (rates "USD" 0.5%float)))
           (screen "CAD" "USD" "10")
           (mkScreen (lit "CAD") (lit "USD") (lit "10")
                     (Num 7%float) (Num 3%float) (Str (lit "stale")) true
                     [(lit "Network Error", lit "earlier")])
           eq_refl eq_refl eq_refl).
Defined.


(** * Concrete runs of the further properties *)

Lemma invalid_input_no_request_witness :
  attempt toUpperCaseAscii noCoercion (stub Rejected) (screen "cad" "USD" "1")
  = attempt toUpperCaseAscii noCoercion
      (answers 200 (Some (rates "USD" 0.5%float))) (screen "cad" "USD" "1").
Proof.
  exact (proj1 (@invalid_input_no_request toUpperCaseAscii noCoercion
                  InvalidBaseCurrency (screen "cad" "USD" "1")
                  (stub Rejected) (answers 200 (Some (rates "USD" 0.5%float)))
                  eq_refl)).
Defined.

Lemma request_single_url_witness :
  attempt toUpperCaseAscii noCoercion
    (answers 200 (Some (rates "USD" 0.5%float))) (screen " CAD " "USD" "10")
  = attempt toUpperCaseAscii noCoercion
      (answersAt (requestUrl (lit "CAD") (lit "USD"))
                 (Responded (mkResponse 200 (Some (rates "USD" 0.5%float)))))
      (screen " CAD " "USD" "10").
Proof.
  exact (@request_single_url toUpperCaseAscii toUpperCaseAscii_ascii noCoercion
           (answers 200 (Some (rates "USD" 0.5%float)))
           (answersAt (requestUrl (lit "CAD") (lit "USD"))
                      (Responded (mkResponse 200 (Some (rates "USD" 0.5%float)))))
           (screen " CAD " "USD" "10") eq_refl eq_refl).
Defined.

Lemma busy_flag_lowered_witness :
  isLoading (attempt toUpperCaseAscii noCoercion (stub Rejected)
               (mkScreen (lit "CAD") (lit "USD") (lit "1") Null Null (Str []) true []))
  = false.
Proof.
  apply (proj1 (busy_flag_lowered toUpperCaseAscii noCoercion (stub Rejected)
                  (mkScreen (lit "CAD") (lit "USD") (lit "1") Null Null (Str []) true []))).
  reflexivity.
Defined.

Lemma alert_exactly_on_catch_witness :
  alerts (attempt toUpperCaseAscii noCoercion (answers 204 None) (screen "CAD" "USD" "1"))
  = [(lit "Network Error", lit "Could not connect to the currency service.")]
  /\ alerts (attempt toUpperCaseAscii noCoercion (answers 500 None) (screen "CAD" "USD" "1"))
     = []
  /\ alerts (attempt toUpperCaseAscii noCoercion
               (answers 200 (Some (rateBody "USD" unconvertible)))
               (screen "CAD" "USD" "1"))
     = [(lit "Network Error", lit "Could not connect to the currency service.")].
Proof.
  split; [| split].
  - apply (proj1 (@alert_exactly_on_catch toUpperCaseAscii toUpperCaseAscii_ascii
                    noCoercion (answers 204 None) (screen "CAD" "USD" "1")));
      reflexivity.
  - apply (proj1 (proj2 (@alert_exactly_on_catch toUpperCaseAscii toUpperCaseAscii_ascii
                           noCoercion (answers 500 None) (screen "CAD" "USD" "1"))));
      reflexivity.
  - apply (proj1 (@alert_exactly_on_catch toUpperCaseAscii toUpperCaseAscii_ascii
                    noCoercion (answers 200 (Some (rateBody "USD" unconvertible)))
                    (screen "CAD" "USD" "1")));
      reflexivity.
Defined.

Lemma code_shape_witness :
  failsWith InvalidBaseCurrency (screen "CADX" "USD" "1")
  /\ failsWith InvalidBaseCurrency (screen "C4D" "USD" "1").
Proof.
  split.
  - apply (proj1 (proj2 (code_shape (screen "CADX" "USD" "1")))).
    intros E. discriminate E.
  - apply (proj2 (proj2 (code_shape (screen "C4D" "USD" "1")))). reflexivity.
Defined.

Lemma request_codes_witness :
  toUpperCaseAscii (trim (lit " CAD")) = lit "CAD"
  /\ toUpperCaseAscii (trim (lit "USD  ")) = lit "USD".
Proof.
  destruct (@request_codes toUpperCaseAscii toUpperCaseAscii_ascii
              (screen " CAD" "USD  " "1") eq_refl) as (B & D & _).
  split; [exact B | exact D].
Defined.

Lemma url_determines_codes_witness :
  requestedBase (screen " CAD" "USD" "1") = requestedBase (screen "CAD " "USD" "2")
  /\ requestedDest (screen " CAD" "USD" "1") = requestedDest (screen "CAD " "USD" "2").
Proof.
  exact (@url_determines_codes (screen " CAD" "USD" "1") (screen "CAD " "USD" "2")
           eq_refl eq_refl eq_refl).
Defined.

Lemma typed_codes_pass_witness :
  passes (onChangeDest toUpperCaseAscii (lit "uSd")
            (onChangeBase toUpperCaseAscii (lit "cad") (screen "" "" "3"))).
Proof.
  exact (proj1 (@typed_codes_pass toUpperCaseAscii toUpperCaseAscii_ascii
                  (screen "" "" "3") 99 97 100 117 83 100
                  eq_refl eq_refl eq_refl eq_refl eq_refl eq_refl eq_refl)).
Defined.

Lemma blank_amount_rejected_witness :
  failsWith InvalidAmount (screen "CAD" "USD" "   ").
Proof.
  exact (proj2 (blank_amount_rejected (screen "CAD" "USD" "   ")
                  eq_refl eq_refl eq_refl)).
Defined.

Lemma amount_leading_space_witness :
  outcome (attempt toUpperCaseAscii noCoercion
             (answers 200 (Some (rates "USD" 0.5%float)))
             (setAmount (lit "  10") (screen "CAD" "USD" "")))
  = outcome (attempt toUpperCaseAscii noCoercion
               (answers 200 (Some (rates "USD" 0.5%float)))
               (setAmount (lit "10") (screen "CAD" "USD" ""))).
Proof.
  exact (proj2 (amount_leading_space toUpperCaseAscii noCoercion
                  (answers 200 (Some (rates "USD" 0.5%float)))
                  (screen "CAD" "USD" "") (lit "  ") (lit "10") eq_refl)).
Defined.

Lemma body_without_data_object_witness :
  outcome (attempt toUpperCaseAscii noCoercion
             (answers 200 (Some (Arr [Num 1%float]))) (screen "CAD" "USD" "1"))
  = (Null, Null, Str (messageOf UnknownCurrencyOrRate)).
Proof.
  apply (@body_without_data_object toUpperCaseAscii toUpperCaseAscii_ascii noCoercion
           (answers 200 (Some (Arr [Num 1%float]))) (screen "CAD" "USD" "1")
           (mkResponse 200 (Some (Arr [Num 1%float]))) (Arr [Num 1%float])
           eq_refl eq_refl eq_refl eq_refl eq_refl).
  intros props E. discriminate E.
Defined.

(** A rate given as the string "0.74", and one given as an object that
    cannot be converted. *)
Lemma non_number_rate_witness :
  (exchangeRate (attempt toUpperCaseAscii noCoercion
                   (answers 200 (Some (rateBody "USD" (Str (lit "0.74")))))
                   (screen "CAD" "USD" "1"))
   = Str (lit "0.74")
   /\ errorMessage (attempt toUpperCaseAscii noCoercion
                      (answers 200 (Some (rateBody "USD" (Str (lit "0.74")))))
                      (screen "CAD" "USD" "1"))
      = Str []
   /\ render fixedStub
        (attempt toUpperCaseAscii noCoercion
           (answers 200 (Some (rateBody "USD" (Str (lit "0.74")))))
           (screen "CAD" "USD" "1"))
      = Thrown)
  /\ (exchangeRate (attempt toUpperCaseAscii noCoercion
                      (answers 200 (Some (rateBody "USD" unconvertible)))
                      (screen "CAD" "USD" "1"))
      = unconvertible
      /\ errorMessage (attempt toUpperCaseAscii noCoercion
                         (answers 200 (Some (rateBody "USD" unconvertible)))
                         (screen "CAD" "USD" "1"))
         = Str (messageOf NetworkError)
      /\ convertedAmount (attempt toUpperCaseAscii noCoercion
                            (answers 200 (Some (rateBody "USD" unconvertible)))
                            (screen "CAD" "USD" "1"))
         = Null).
Proof.
  split.
  - destruct (@non_number_rate toUpperCaseAscii toUpperCaseAscii_ascii noCoercion
                fixedStub
                (answers 200 (Some (rateBody "USD" (Str (lit "0.74")))))
                (screen "CAD" "USD" "1")
                (mkResponse 200 (Some (rateBody "USD" (Str (lit "0.74")))))
                (rateBody "USD" (Str (lit "0.74")))
                eq_refl eq_refl eq_refl eq_refl eq_refl
                ltac:(intros x E; discriminate E)) as (R & C & _).
    destruct (C eq_refl) as (E & _ & T).
    split; [exact R | split; [exact E | exact T]].
  - destruct (@non_number_rate toUpperCaseAscii toUpperCaseAscii_ascii noCoercion
                fixedStub
                (answers 200 (Some (rateBody "USD" unconvertible)))
                (screen "CAD" "USD" "1")
                (mkResponse 200 (Some (rateBody "USD" unconvertible)))
                (rateBody "USD" unconvertible)
                eq_refl eq_refl eq_refl eq_refl eq_refl
                ltac:(intros x E; discriminate E)) as (R & _ & C).
    destruct (C eq_refl) as (E & N & _).
    split; [exact R | split; [exact E | exact N]].
Defined.

(** A provider message that is an object reaches the banner, and React
    refuses it. *)
Lemma render_after_attempt_witness :
  render fixedStub
    (attempt toUpperCaseAscii noCoercion
       (answers 422 (Some (Obj [(lit "message", Obj [(lit "code", Num 7%float)])])))
       (screen "CAD" "USD" "10"))
  = Thrown.
Proof.
  apply (proj1 (render_after_attempt toUpperCaseAscii noCoercion fixedStub
                  (answers 422
                     (Some (Obj [(lit "message", Obj [(lit "code", Num 7%float)])])))
                  (screen "CAD" "USD" "10") eq_refl)).
  right. split; reflexivity.
Defined.

Lemma messages_distinct_witness :
  requestFailedMessage 404 <> requestFailedMessage 500
  /\ messageOf InvalidApiKey <> messageOf NetworkError.
Proof.
  destruct (messages_distinct 404 500 InvalidApiKey NetworkError) as (S & _ & K & _).
  split; [apply S | apply K]; discriminate.
Defined.

Lemma negative_amount_rejected_witness :
  failsWith InvalidAmount (screen "CAD" "USD" " -5").
Proof.
  exact (proj1 (negative_amount_rejected (screen "CAD" "USD" " -5") (lit " ") (lit "5")
                  eq_refl eq_refl eq_refl eq_refl)).
Defined.

Lemma negative_rate_accepted_witness :
  outcome (attempt toUpperCaseAscii noCoercion
             (answers 200 (Some (rates "USD" (-0.5)%float))) (screen "CAD" "USD" "10"))
  = (Num (-0.5)%float, Num (-5)%float, Str []).
Proof.
  exact (@negative_rate_accepted toUpperCaseAscii toUpperCaseAscii_ascii noCoercion
           (answers 200 (Some (rates "USD" (-0.5)%float))) (screen "CAD" "USD" "10")
           (mkResponse 200 (Some (rates "USD" (-0.5)%float)))
           (rates "USD" (-0.5)%float) (-0.5)%float
           eq_refl eq_refl eq_refl eq_refl eq_refl eq_refl).
Defined.

Lemma amount_trailing_text_witness :
  parseFloat (lit "2.50 CAD") = parseFloat (lit "2.50")
  /\ parseFloat (lit "1e3$") = parseFloat (lit "1e3").
Proof.
  split.
  - exact (proj1 (amount_trailing_text toUpperCaseAscii noCoercion (stub Rejected)
                    (screen "CAD" "USD" "") (lit "2.50") (lit " CAD") eq_refl eq_refl)).
  - exact (proj1 (amount_trailing_text toUpperCaseAscii noCoercion (stub Rejected)
                    (screen "CAD" "USD" "") (lit "1e3") (lit "$") eq_refl eq_refl)).
Defined.

Lemma padded_codes_pass_witness :
  passes (screen " CAD " "  USD" "1")
  /\ urlOf (screen " CAD " "  USD" "1") = requestUrl (lit "CAD") (lit "USD").
Proof.
  exact (padded_codes_pass (screen " CAD " "  USD" "1")
           (lit " ") (lit " ") (lit "  ") [] 67 65 68 85 83 68
           eq_refl eq_refl eq_refl eq_refl eq_refl eq_refl eq_refl eq_refl eq_refl).
Defined.

Lemma error_cell_content_witness :
  (exists t,
     errorMessage (attempt toUpperCaseAscii noCoercion
                     (answers 422 (Some (Obj [(lit "message", Num 7%float)])))
                     (screen "CAD" "USD" "1"))
     = Str t)
  \/ (passes (screen "CAD" "USD" "1")
      /\ exists r body,
           answers 422 (Some (Obj [(lit "message", Num 7%float)]))
             (urlOf (screen "CAD" "USD" "1"))
           = Responded r
           /\ ok r = false /\ status r <> 401%N
           /\ json r = Some body
           /\ toBoolean (optProp body (lit "message")) = true
           /\ errorMessage (attempt toUpperCaseAscii noCoercion
                              (answers 422 (Some (Obj [(lit "message", Num 7%float)])))
                              (screen "CAD" "USD" "1"))
              = optProp body (lit "message")).
Proof.
  exact (@error_cell_content toUpperCaseAscii toUpperCaseAscii_ascii noCoercion
           (answers 422 (Some (Obj [(lit "message", Num 7%float)])))
           (screen "CAD" "USD" "1")).
Defined.

Lemma zero_amount_rejected_witness :
  parseFloat (lit "000 dollars") = 0%float
  /\ failsWith InvalidAmount (screen "CAD" "USD" "000 dollars").
Proof.
  exact (@zero_amount_rejected (screen "CAD" "USD" "000 dollars")
           (lit "000") (lit " dollars")
           eq_refl eq_refl ltac:(discriminate) eq_refl eq_refl eq_refl).
Defined.

(** One body with the single rate, one with other rates and fields around
    it and another 2xx status. *)
Lemma only_requested_entry_matters_witness :
  outcome (attempt toUpperCaseAscii noCoercion
             (answers 200 (Some (rates "USD" 0.5%float))) (screen "CAD" "USD" "10"))
  = outcome (attempt toUpperCaseAscii noCoercion
               (answers 203
                  (Some (Obj [(lit "meta", Str (lit "cached"));
                              (lit "data", Obj [(lit "EUR", Num 0.25%float);
                                                (lit "USD", Num 0.5%float)])])))
               (screen "CAD" "USD" "10")).
Proof.
  exact (@only_requested_entry_matters toUpperCaseAscii toUpperCaseAscii_ascii noCoercion
           (answers 200 (Some (rates "USD" 0.5%float)))
           (answers 203
              (Some (Obj [(lit "meta", Str (lit "cached"));
                          (lit "data", Obj [(lit "EUR", Num 0.25%float);
                                            (lit "USD", Num 0.5%float)])])))
           (screen "CAD" "USD" "10")
           (mkResponse 200 (Some (rates "USD" 0.5%float)))
           (mkResponse 203
              (Some (Obj [(lit "meta", Str (lit "cached"));
                          (lit "data", Obj [(lit "EUR", Num 0.25%float);
                                            (lit "USD", Num 0.5%float)])])))
           (rates "USD" 0.5%float)
           (Obj [(lit "meta", Str (lit "cached"));
                 (lit "data", Obj [(lit "EUR", Num 0.25%float);
                                   (lit "USD", Num 0.5%float)])])
           eq_refl eq_refl eq_refl eq_refl eq_refl eq_refl eq_refl eq_refl eq_refl
           eq_refl).
Defined.

Lemma second_attempt_witness :
  attempt toUpperCaseAscii noCoercion (answers 200 (Some (rates "USD" 0.5%float)))
    (attempt toUpperCaseAscii noCoercion (answers 200 (Some (rates "USD" 0.5%float)))
       (screen "CAD" "USD" "10"))
  = attempt toUpperCaseAscii noCoercion (answers 200 (Some (rates "USD" 0.5%float)))
      (screen "CAD" "USD" "10").
Proof.
  apply (proj2 (proj2 (second_attempt toUpperCaseAscii noCoercion
                         (answers 200 (Some (rates "USD" 0.5%float)))
                         (screen "CAD" "USD" "10")))).
  reflexivity.
Defined.
